(** * The single-file intake pipeline of [process_one_file.py]

    A shallow embedding of the pipeline: Python values and dict objects
    (with their identity, so that aliasing and copying are visible), the
    module-level singletons, the collaborators' methods and the
    orchestrator [process_next_file], followed by the properties of the
    pipeline that the specification states. *)

From Stdlib Require Import String Ascii List ZArith QArith Qabs Bool Lia.
From Stdlib Require Import DecimalString DecimalZ DecimalPos.
Import ListNotations.

Local Close Scope Q_scope.
Local Open Scope string_scope.
Local Open Scope list_scope.

(** ** Python values *)

(** The [Exception] subclasses that the pipeline can meet. *)
Inductive exn : Type :=
| KeyError (key : string)
| IndexError
| TypeError
| AttributeError
| ValueError
| ZeroDivisionError
| OSError (what : string)
| RuntimeError (what : string).

(** [str(e)] *)
Definition str_of_exn (e : exn) : string :=
  match e with
  | KeyError k => "'" ++ k ++ "'"
  | OSError s | RuntimeError s => s
  | _ => ""
  end.

Definition loc := nat.

(** Values.  A dict is an object: a value only holds a reference to it.
    A Python float is held as the exact rational it denotes, reduced, and
    [/] and [*] give the exact quotient and product: their rounding, and
    an operand or a result too large for a float (where the code raises
    [OverflowError] or gives [inf]), are outside the model, and the
    statements that need operands of a float's size say so; what the
    pipeline tests on a float (is it zero, its sign) is not affected.
    The elapsed milliseconds, an integer that the pipeline truncates
    from a float product, are computed with the rounding of the code.
    [VIso t] is the string [isoformat()] gives for the instant [t], an
    integer count of microseconds; [datetime.fromisoformat] reads [t]
    back from it. *)
Inductive value : Type :=
| VNone
| VBool (b : bool)
| VInt (z : Z)
| VFloat (q : Q)
| VStr (s : string)
| VIso (t : Z)
| VRef (l : loc).

(** A dict keeps its keys in insertion order. *)
Definition dict := list (string * value).

Fixpoint dict_get (k : string) (d : dict) : option value :=
  match d with
  | [] => None
  | (k', v) :: d' => if String.eqb k k' then Some v else dict_get k d'
  end.

(** [k in d] *)
Definition dict_mem (k : string) (d : dict) : bool :=
  match dict_get k d with Some _ => true | None => false end.

(** [d[k] = v]: an existing key keeps its place. *)
Fixpoint dict_set (k : string) (v : value) (d : dict) : dict :=
  match d with
  | [] => [(k, v)]
  | (k', v') :: d' =>
      if String.eqb k k' then (k', v) :: d' else (k', v') :: dict_set k v d'
  end.

(** [del d[k]], for a key that is there. *)
Fixpoint dict_del (k : string) (d : dict) : dict :=
  match d with
  | [] => []
  | (k', v') :: d' =>
      if String.eqb k k' then dict_del k d' else (k', v') :: dict_del k d'
  end.

(** [d.update(patch)] *)
Definition dict_update (d patch : dict) : dict :=
  fold_left (fun acc kv => dict_set (fst kv) (snd kv) acc) patch d.

Definition dict_keys (d : dict) : list string := map fst d.

(** ** The heap of dict objects *)

(** Objects are numbered in the order of their creation; the list holds
    the newest first. *)
Definition heap := list dict.

Fixpoint heap_get (l : loc) (h : heap) : option dict :=
  match h with
  | [] => None
  | d :: h' => if Nat.eqb l (length h') then Some d else heap_get l h'
  end.

Definition heap_alloc (d : dict) (h : heap) : loc * heap :=
  (length h, d :: h).

Fixpoint heap_set (l : loc) (d : dict) (h : heap) : heap :=
  match h with
  | [] => []
  | d' :: h' =>
      if Nat.eqb l (length h') then d :: h' else d' :: heap_set l d h'
  end.

(** Truth value of a value, as [if], [not] and [or] test it. *)
Definition truthy (h : heap) (v : value) : bool :=
  match v with
  | VNone => false
  | VBool b => b
  | VInt z => negb (Z.eqb z 0)
  | VFloat q => negb (Qeq_bool q 0)
  | VStr s => negb (String.eqb s "")
  | VIso _ => true
  | VRef l => match heap_get l h with Some [] => false | _ => true end
  end.

(** [x or y] *)
Definition py_or (h : heap) (x y : value) : value :=
  if truthy h x then x else y.

(** What [d.get(k)] gives for a lookup: [None] for a missing key. *)
Definition or_none (o : option value) : value :=
  match o with Some v => v | None => VNone end.

(** [v == s] for a string literal [s]. *)
Definition eq_str (v : value) (s : string) : bool :=
  match v with VStr s' => String.eqb s' s | _ => false end.

(** ** Outcomes and the state-and-exception monad *)

Inductive outcome (A : Type) : Type :=
| Ret (a : A)
| Raise (e : exn).
Arguments Ret {A} a.
Arguments Raise {A} e.

(** A computation over a state [S] that returns or raises. *)
Definition comp (S A : Type) : Type := S -> outcome A * S.

Definition ret {S A} (a : A) : comp S A := fun s => (Ret a, s).

Definition raise {S A} (e : exn) : comp S A := fun s => (Raise e, s).

Definition bind {S A B} (m : comp S A) (k : A -> comp S B) : comp S B :=
  fun s =>
    match m s with
    | (Ret a, s') => k a s'
    | (Raise e, s') => (Raise e, s')
    end.

(** [try: m  except Exception as e: h e] *)
Definition try_except {S A} (m : comp S A) (h : exn -> comp S A)
  : comp S A :=
  fun s =>
    match m s with
    | (Ret a, s') => (Ret a, s')
    | (Raise e, s') => h e s'
    end.

Arguments ret {S A} a s /.
Arguments raise {S A} e s /.
Arguments bind {S A B} m k s /.
Arguments try_except {S A} m h s /.

Declare Scope py_scope.
Delimit Scope py_scope with py.
Notation "x <- m ;; k" := (bind m (fun x => k))
  (at level 100, m at next level, right associativity) : py_scope.
Notation "m ;;; k" := (bind m (fun _ => k))
  (at level 100, right associativity) : py_scope.
Local Open Scope py_scope.

(** ** The world of the collaborators *)

(** What the pipeline needs of the [os] module, over some type of file
    systems.  [os.path.exists] and [os.path.isfile] never raise on a
    string; the other three can. *)
Class OS : Type := {
  FS : Type;
  os_path_exists : string -> FS -> bool;
  os_path_isfile : string -> FS -> bool;
  os_listdir : string -> FS -> exn + list string;
  os_makedirs : string -> FS -> exn + FS;
  os_rename : string -> string -> FS -> exn + FS
}.

(** What [Config.log_msg] prints, without its time stamp. *)
Inductive logmsg : Type :=
| LogInfo (msg : string)
| LogError (e : exn).

Section World.
Context {os : OS}.

(** The state outside the orchestrator's frame: the file system, the
    heap, the fields of the [MongoCommonCollections] and [Logger]
    singletons, the instants the next calls of [datetime.now()] will
    read, the exception (if any) that the await of [asyncio.sleep]
    raises, and the lines printed so far. *)
Record world : Type := mkWorld {
  w_fs : FS;
  w_heap : heap;
  w_jobs : dict;
  w_job_counter : Z;
  w_task_id : value;
  w_clock : list Z;
  w_sleep : option exn;
  w_log : list logmsg
}.

Definition with_fs (fs : FS) (w : world) : world :=
  mkWorld fs (w_heap w) (w_jobs w) (w_job_counter w) (w_task_id w)
          (w_clock w) (w_sleep w) (w_log w).

Definition with_heap (h : heap) (w : world) : world :=
  mkWorld (w_fs w) h (w_jobs w) (w_job_counter w) (w_task_id w)
          (w_clock w) (w_sleep w) (w_log w).

Definition with_jobs (j : dict) (w : world) : world :=
  mkWorld (w_fs w) (w_heap w) j (w_job_counter w) (w_task_id w)
          (w_clock w) (w_sleep w) (w_log w).

Definition with_job_counter (c : Z) (w : world) : world :=
  mkWorld (w_fs w) (w_heap w) (w_jobs w) c (w_task_id w)
          (w_clock w) (w_sleep w) (w_log w).

Definition with_task_id (t : value) (w : world) : world :=
  mkWorld (w_fs w) (w_heap w) (w_jobs w) (w_job_counter w) t
          (w_clock w) (w_sleep w) (w_log w).

Definition with_clock (c : list Z) (w : world) : world :=
  mkWorld (w_fs w) (w_heap w) (w_jobs w) (w_job_counter w) (w_task_id w)
          c (w_sleep w) (w_log w).

Definition with_log (l : list logmsg) (w : world) : world :=
  mkWorld (w_fs w) (w_heap w) (w_jobs w) (w_job_counter w) (w_task_id w)
          (w_clock w) (w_sleep w) l.

(** The monad of the collaborators. *)
Definition M (A : Type) : Type := comp world A.

End World.

Arguments with_fs {os} fs w /.
Arguments with_heap {os} h w /.
Arguments with_jobs {os} j w /.
Arguments with_job_counter {os} c w /.
Arguments with_task_id {os} t w /.
Arguments with_clock {os} c w /.
Arguments with_log {os} l w /.

(** ** Operations on values *)

Section Primitives.
Context {os : OS}.

Definition get_heap : M heap := fun w => (Ret (w_heap w), w).

Definition alloc (d : dict) : M value :=
  fun w =>
    let (l, h) := heap_alloc d (w_heap w) in (Ret (VRef l), with_heap h w).

(** The dict a value refers to; [err] is raised for any other value. *)
Definition deref (err : exn) (v : value) : M dict :=
  fun w =>
    match v with
    | VRef l =>
        match heap_get l (w_heap w) with
        | Some d => (Ret d, w)
        | None => (Raise err, w)
        end
    | _ => (Raise err, w)
    end.

Definition store (v : value) (d : dict) : M unit :=
  fun w =>
    match v with
    | VRef l => (Ret tt, with_heap (heap_set l d (w_heap w)) w)
    | _ => (Raise TypeError, w)
    end.

(** [v[k]] *)
Definition py_getitem (v : value) (k : string) : M value :=
  d <- deref TypeError v ;;
  match dict_get k d with
  | Some x => ret x
  | None => raise (KeyError k)
  end.

(** [v.get(k)] *)
Definition py_get (v : value) (k : string) : M value :=
  d <- deref AttributeError v ;;
  ret (or_none (dict_get k d)).

(** [v[k] = x] *)
Definition py_setitem (v : value) (k : string) (x : value) : M unit :=
  d <- deref TypeError v ;;
  store v (dict_set k x d).

(** [del v[k]] *)
Definition py_delitem (v : value) (k : string) : M unit :=
  d <- deref TypeError v ;;
  if dict_mem k d then store v (dict_del k d) else raise (KeyError k).

(** [k in v] *)
Definition py_contains (k : string) (v : value) : M bool :=
  d <- deref TypeError v ;;
  ret (dict_mem k d).

(** [dict(v)]: a new dict object with the items of [v]. *)
Definition py_dict (v : value) : M value :=
  d <- deref TypeError v ;;
  alloc d.

(** [target.update(patch)] *)
Definition py_update (target patch : value) : M unit :=
  td <- deref AttributeError target ;;
  pd <- deref TypeError patch ;;
  store target (dict_update td pd).

(** [isinstance(v, dict)] *)
Definition is_dict (v : value) : bool :=
  match v with VRef _ => true | _ => false end.

Definition py_truthy (v : value) : M bool :=
  h <- get_heap ;; ret (truthy h v).

(** [x or y], for [y] a literal *)
Definition py_or_m (x y : value) : M value :=
  h <- get_heap ;; ret (py_or h x y).

Definition as_number (v : value) : option Q :=
  match v with
  | VInt z => Some (inject_Z z)
  | VFloat q => Some q
  | VBool b => Some (if b then 1 else 0)%Q
  | _ => None
  end.

(** [a / b], true division *)
Definition py_truediv (a b : value) : M value :=
  match as_number a, as_number b with
  | Some x, Some y =>
      if Qeq_bool y 0 then raise ZeroDivisionError
      else ret (VFloat (Qred (x / y)))
  | _, _ => raise TypeError
  end.

(** [a * b] on numbers *)
Definition py_mul (a b : value) : M value :=
  match a, b with
  | VInt x, VInt y => ret (VInt (x * y))
  | _, _ =>
      match as_number a, as_number b with
      | Some x, Some y => ret (VFloat (Qred (x * y)))
      | _, _ => raise TypeError
      end
  end.

Fixpoint for_each {A} (l : list A) (f : A -> M unit) : M unit :=
  match l with
  | [] => ret tt
  | a :: l' => f a ;;; for_each l' f
  end.

(** [json.dumps(v)] of a value: only a circular reference makes it raise.
    A chain of nested dicts longer than the heap would repeat an object. *)
Fixpoint json_ok (fuel : nat) (h : heap) (v : value) : bool :=
  match v with
  | VRef l =>
      match fuel with
      | O => false
      | S n =>
          match heap_get l h with
          | Some d => forallb (fun kv => json_ok n h (snd kv)) d
          | None => false
          end
      end
  | _ => true
  end.

Definition json_dumps (v : value) : M unit :=
  h <- get_heap ;;
  if json_ok (length h) h v then ret tt else raise ValueError.

(** [Logger.info] and [Logger.unexpected_err]: a line is printed.  Times
    and JSON text interpolated into a line are left out of it.  The
    standard output is taken to accept every line: a [print] that
    refuses a character of a file name is outside the model. *)
Definition log_info (msg : string) : M unit :=
  fun w => (Ret tt, with_log (w_log w ++ [LogInfo msg]) w).

Definition unexpected_err (e : exn) : M unit :=
  fun w => (Ret tt, with_log (w_log w ++ [LogError e]) w).

(** [datetime.now()], in microseconds: the next reading of the clock; a
    clock with no reading left reads 0. *)
Definition datetime_now : M Z :=
  fun w => (Ret (hd 0%Z (w_clock w)), with_clock (tl (w_clock w)) w).

(** [await asyncio.sleep(0.1)] *)
Definition asyncio_sleep : M unit :=
  fun w =>
    match w_sleep w with
    | Some e => (Raise e, w)
    | None => (Ret tt, w)
    end.

(** *** The [os] module *)

Definition starts_with_slash (s : string) : bool :=
  match s with
  | String c _ => Ascii.eqb c "/"
  | EmptyString => false
  end.

Fixpoint ends_with_slash (s : string) : bool :=
  match s with
  | EmptyString => false
  | String c EmptyString => Ascii.eqb c "/"
  | String _ s' => ends_with_slash s'
  end.

(** [posixpath.join] of two strings. *)
Definition os_path_join (a b : string) : string :=
  if starts_with_slash b then b
  else if String.eqb a "" || ends_with_slash a then a ++ b
  else a ++ "/" ++ b.

(** A path argument is taken to be a string; any other value is
    refused with [TypeError].  An integer, which the [os] module reads
    as a file descriptor, is outside the model. *)
Definition as_path (v : value) : M string :=
  match v with
  | VStr s => ret s
  | _ => raise TypeError
  end.

Definition path_join (a : value) (b : string) : M string :=
  p <- as_path a ;; ret (os_path_join p b).

Definition path_exists (p : string) : M bool :=
  fun w => (Ret (os_path_exists p (w_fs w)), w).

Definition path_isfile (p : string) : M bool :=
  fun w => (Ret (os_path_isfile p (w_fs w)), w).

Definition listdir (p : string) : M (list string) :=
  fun w =>
    match os_listdir p (w_fs w) with
    | inl e => (Raise e, w)
    | inr names => (Ret names, w)
    end.

(** [os.makedirs(p, exist_ok=True)] *)
Definition makedirs (p : string) : M unit :=
  fun w =>
    match os_makedirs p (w_fs w) with
    | inl e => (Raise e, w)
    | inr fs => (Ret tt, with_fs fs w)
    end.

Definition rename (src dst : string) : M unit :=
  fun w =>
    match os_rename src dst (w_fs w) with
    | inl e => (Raise e, w)
    | inr fs => (Ret tt, with_fs fs w)
    end.

End Primitives.

(** ** [list.sort] on file names *)

(** The order a sort with [reverse] uses between two names. *)
Definition name_le (reverse : bool) (a b : string) : bool :=
  if reverse then String.leb b a else String.leb a b.

Fixpoint sort_insert (reverse : bool) (x : string) (l : list string)
  : list string :=
  match l with
  | [] => [x]
  | y :: l' =>
      if name_le reverse x y then x :: y :: l'
      else y :: sort_insert reverse x l'
  end.

(** [files.sort(reverse=reverse)]: Python compares strings by code
    point, which is the order of their UTF-8 bytes, and two names that
    compare equal are the same name. *)
Definition py_sort (reverse : bool) (l : list string) : list string :=
  fold_right (sort_insert reverse) [] l.

(** ** The collaborators of the source *)

(** [commons_lib.OnFileProcErr] *)
Module OnFileProcErr.
Definition FAIL : string := "FAIL".
Definition OK : string := "OK".
End OnFileProcErr.

Definition my_proc_name : string := "FileProcessor".

(** The dict [{'file_name': .., 'full_path': ..}] that describes the
    selected file; nothing ever writes to it. *)
Record pending_file : Type := mkPending {
  file_name : string;
  full_path : string
}.

(** [d.get(k)] on the configuration dict [files_path], which the
    pipeline only reads. *)
Definition path_of (files_path : dict) (k : string) : value :=
  or_none (dict_get k files_path).

(** [f"JOB_{n}"] *)
Definition job_name (n : Z) : string :=
  "JOB_" ++ NilZero.string_of_int (Z.to_int n).

Module FilesManager.
Section Methods.
Context {os : OS}.

(** [get_first_available_file(files_path, reverse_time_order)] *)
Definition get_first_available_file (files_path : dict)
    (reverse_time_order : bool) : M (option pending_file) :=
  let repo_path := path_of files_path "repo_path" in
  t <- py_truthy repo_path ;;
  if negb t then ret None else
  dir <- as_path repo_path ;;
  ex <- path_exists dir ;;
  if negb ex then ret None else
  names <- listdir dir ;;
  fun w =>
    let files :=
      filter (fun f => os_path_isfile (os_path_join dir f) (w_fs w)) names in
    match files with
    | [] => (Ret None, w)
    | _ :: _ =>
        match py_sort reverse_time_order files with
        | first :: _ =>
            (Ret (Some (mkPending first (os_path_join dir first))), w)
        | [] => (Raise IndexError, w)
        end
    end.

(** [move_file(file_name, from_path, to_path)] *)
Definition move_file (name : string) (from_path to_path : value) : M bool :=
  try_except
    (src <- path_join from_path name ;;
     dst <- path_join to_path name ;;
     dir <- as_path to_path ;;
     makedirs dir ;;;
     ex <- path_exists src ;;
     if ex then (rename src dst ;;; ret true) else ret false)
    (fun e => unexpected_err e ;;; ret false).

(** [clean_file_process_q(file_name, error)] *)
Definition clean_file_process_q (name : string) (error : option exn)
  : M unit :=
  match error with
  | Some _ => log_info ("Cleaning queue with error for file: " ++ name)
  | None => log_info ("Successfully cleaned queue for file: " ++ name)
  end.

End Methods.
End FilesManager.

(** [v + 1], as [self.sequences[name] += 1] computes it. *)
Definition py_add_one (v : value) : option value :=
  match v with
  | VInt n => Some (VInt (n + 1))
  | VBool b => Some (VInt ((if b then 1 else 0) + 1))
  | VFloat q => Some (VFloat (Qred (q + 1)))
  | _ => None
  end.

Module MongoCommonCollections.
Section Methods.
Context {os : OS}.

(** [create_job(payload)]: the store keeps the payload object itself. *)
Definition create_job (payload : value) : M string :=
  fun w =>
    let n := (w_job_counter w + 1)%Z in
    let job_id := job_name n in
    let w1 := with_job_counter n w in
    let w2 := with_jobs (dict_set job_id payload (w_jobs w1)) w1 in
    (log_info ("Job created with ID: " ++ job_id) ;;; ret job_id) w2.

(** [update_job(job_id, payload)] *)
Definition update_job (job_id : string) (payload : value) : M bool :=
  fun w =>
    match dict_get job_id (w_jobs w) with
    | Some target =>
        (py_update target payload ;;;
         log_info ("Job updated: " ++ job_id) ;;;
         ret true) w
    | None => (Ret true, w)
    end.

End Methods.

(** [get_sequence(name)], over the dict [self.sequences], which no other
    method reads or writes. *)
Definition get_sequence (name : string) : comp dict value :=
  fun sequences =>
    let s1 :=
      if dict_mem name sequences then sequences
      else dict_set name (VInt 0) sequences in
    match dict_get name s1 with
    | None => (Raise (KeyError name), s1)
    | Some v =>
        match py_add_one v with
        | None => (Raise TypeError, s1)
        | Some v' =>
            let s2 := dict_set name v' s1 in
            match dict_get name s2 with
            | Some r => (Ret r, s2)
            | None => (Raise (KeyError name), s2)
            end
        end
    end.

End MongoCommonCollections.

Module FileParser.
Section Methods.
Context {os : OS}.

(** [import_feed_file(file_to_proc, job_id)] *)
Definition import_feed_file (file_to_proc : pending_file) (job_id : string)
  : M value :=
  log_info ("Importing feed file: " ++ file_name file_to_proc) ;;;
  try_except
    (totals <- alloc [("raw_lines", VInt 100); ("records_ok", VInt 95);
                      ("transactions", VInt 95);
                      ("site_name", VStr "Site_A")] ;;
     summary <- alloc [("totals", totals); ("error", VNone)] ;;
     asyncio_sleep ;;;
     ret summary)
    (fun e =>
       totals <- alloc [("raw_lines", VInt 0); ("records_ok", VInt 0);
                        ("transactions", VInt 0)] ;;
       error <- alloc [("flag", VStr OnFileProcErr.FAIL);
                       ("message", VStr (str_of_exn e))] ;;
       alloc [("totals", totals); ("error", error)]).

End Methods.
End FileParser.

(** ** Elapsed time *)

(** The integer nearest to a rational, ties going to the even one. *)
Definition round_half_even (q : Q) : Z :=
  let n := Qnum q in
  let d := Z.pos (Qden q) in
  let fl := (n / d)%Z in
  let twice := (2 * (n mod d))%Z in
  if (twice <? d)%Z then fl
  else if (d <? twice)%Z then (fl + 1)%Z
  else if Z.even fl then fl else (fl + 1)%Z.

(** [2 ^ e] for any integer [e]. *)
Definition pow2 (e : Z) : Q :=
  if (0 <=? e)%Z then inject_Z (2 ^ e) else (1 # Z.to_pos (2 ^ (- e))).

(** The exponent [e] of the double nearest to [q <> 0]: the one with
    [2^52 <= |q| / 2^e < 2^53]. *)
Definition double_exponent (q : Q) : Z :=
  let n := Z.abs (Qnum q) in
  let d := Z.pos (Qden q) in
  let k := (Z.log2 n - Z.log2 d)%Z in
  let below :=
    if (0 <=? k)%Z then (n <? d * 2 ^ k)%Z else (n * 2 ^ (- k) <? d)%Z in
  ((if below then k - 1 else k) - 52)%Z.

(** A rational rounded to a double, to nearest and ties to even; the
    exponent is not bounded. *)
Definition round_to_double (q : Q) : Q :=
  if Qeq_bool q 0 then 0%Q
  else
    let e := double_exponent q in
    Qred (inject_Z (round_half_even (q / pow2 e)) * pow2 e).

(** [timedelta.total_seconds()] of a difference in microseconds: the
    true division of two integers, which is correctly rounded. *)
Definition total_seconds (micros : Z) : Q :=
  round_to_double (inject_Z micros / inject_Z 1000000).

(** [int(x)] of a float: towards zero. *)
Definition int_of_float (x : Q) : Z := Z.quot (Qnum x) (Z.pos (Qden x)).

(** [int((end - start).total_seconds() * 1000)], the two instants in
    microseconds: the product is a float product, so it is rounded
    before it is truncated. *)
Definition elapsed_millis (start now : Z) : Z :=
  int_of_float
    (round_to_double (total_seconds (now - start) * inject_Z 1000)).

(** ** [create_process_doc] *)

Section Metrics.
Context {os : OS}.

(** [create_process_doc(start_proc_file_time, summary)] *)
Definition create_process_doc (start_proc_file_time : Z) (summary : value)
  : M value :=
  try_except
    (doc <- alloc [] ;;
     tot <- py_getitem summary "totals" ;;
     py_setitem doc "start_time" (VIso start_proc_file_time) ;;;
     end_time <- datetime_now ;;
     py_setitem doc "end_time" (VIso end_time) ;;;
     py_setitem doc "elapsed_time_in_millisecs"
       (VInt (elapsed_millis start_proc_file_time end_time)) ;;;
     millis <- py_getitem doc "elapsed_time_in_millisecs" ;;
     secs <- py_truediv millis (VInt 1000) ;;
     py_setitem doc "elapsed_time_in_secs" secs ;;;
     records_ok <- py_getitem tot "records_ok" ;;
     raw_lines <- py_get tot "raw_lines" ;;
     divisor <- py_or_m raw_lines (VInt 1) ;;
     ratio <- py_truediv records_ok divisor ;;
     perc <- py_mul ratio (VInt 100) ;;
     py_setitem doc "valid_transac_perc" perc ;;;
     transactions <- py_get tot "transactions" ;;
     numerator <- py_or_m transactions (VInt (-1)) ;;
     secs' <- py_getitem doc "elapsed_time_in_secs" ;;
     divisor' <- py_or_m secs' (VInt 1) ;;
     tps <- py_truediv numerator divisor' ;;
     py_setitem doc "tps" tps ;;;
     items <- deref TypeError summary ;;
     for_each (dict_keys items)
       (fun key =>
          v <- py_getitem summary key ;;
          if is_dict v then py_setitem doc key v else ret tt) ;;;
     ret doc)
    (fun err => unexpected_err err ;;; raise err).

End Metrics.

(** ** The orchestrator *)

(** The module-level singletons that [process_next_file] calls, by the
    methods it uses. *)
Record FilesManagerObj {os : OS} : Type := {
  get_first_available_file : dict -> bool -> M (option pending_file);
  move_file : string -> value -> value -> M bool;
  clean_file_process_q : string -> option exn -> M unit
}.

Record JobStoreObj {os : OS} : Type := {
  create_job : value -> M string;
  update_job : string -> value -> M bool
}.

Record FileParserObj {os : OS} : Type := {
  import_feed_file : pending_file -> string -> M value
}.

Record singletons {os : OS} : Type := {
  files_mgr : FilesManagerObj;
  mongo_common_collections : JobStoreObj;
  file_parser : FileParserObj
}.

(** The singletons as the module creates them. *)
Definition source_singletons {os : OS} : singletons := {|
  files_mgr := {|
    get_first_available_file := FilesManager.get_first_available_file;
    move_file := FilesManager.move_file;
    clean_file_process_q := FilesManager.clean_file_process_q |};
  mongo_common_collections := {|
    create_job := MongoCommonCollections.create_job;
    update_job := MongoCommonCollections.update_job |};
  file_parser := {|
    import_feed_file := FileParser.import_feed_file |}
|}.

(** One entry per call the orchestrator makes to a singleton, in order:
    a record kept beside the run so that calls can be counted. *)
Inductive call : Type :=
| CallSelect
| CallCreateJob
| CallTransform (name : string)
| CallMove (name : string) (from_path to_path : value)
| CallUpdateJob (job_id : string)
| CallCleanup (name : string) (error : option exn).

(** The dict [{'file_name': .., 'hist_doc': ..}] the orchestrator
    returns. *)
Record result : Type := mkResult {
  res_file_name : string;
  hist_doc : value
}.

Definition proc_name : string := "input_processor".

Definition mv_out_arr : list string :=
  ["start_time"; "end_time"; "elapsed_time_in_millisecs";
   "elapsed_time_in_secs"; "valid_transac_perc"; "tps"].

Section Orchestrator.
Context {os : OS}.

(** The frame of one invocation: the world, the record of calls, and the
    three locals the handlers read. *)
Record frame : Type := mkFrame {
  fr_world : world;
  calls : list call;
  local_err : option exn;
  file_to_proc : option pending_file;
  process_results_doc : value
}.

Definition O (A : Type) : Type := comp frame A.

Definition enter (w : world) : frame := mkFrame w [] None None VNone.

Definition lift {A} (m : M A) : O A :=
  fun fr =>
    let (r, w') := m (fr_world fr) in
    (r, mkFrame w' (calls fr) (local_err fr) (file_to_proc fr)
                (process_results_doc fr)).

(** A call to a method of a singleton, noted before it runs. *)
Definition invoke {A} (c : call) (m : M A) : O A :=
  fun fr =>
    lift m (mkFrame (fr_world fr) (calls fr ++ [c]) (local_err fr)
                    (file_to_proc fr) (process_results_doc fr)).

Definition set_local_err (e : option exn) : O unit :=
  fun fr =>
    (Ret tt, mkFrame (fr_world fr) (calls fr) e (file_to_proc fr)
                     (process_results_doc fr)).

Definition set_file_to_proc (f : option pending_file) : O unit :=
  fun fr =>
    (Ret tt, mkFrame (fr_world fr) (calls fr) (local_err fr) f
                     (process_results_doc fr)).

Definition set_process_results_doc (v : value) : O unit :=
  fun fr =>
    (Ret tt, mkFrame (fr_world fr) (calls fr) (local_err fr)
                     (file_to_proc fr) v).

Definition set_task_id (v : value) : M unit :=
  fun w => (Ret tt, with_task_id v w).

(** [try: body  except Exception as e: handler e  finally: final], where
    [body] ends in a [return] and [handler] does not: [Some v] when the
    function returns [v] from [body], [None] when control goes on after
    the statement. *)
Definition try_except_finally {A} (body : O A) (handler : exn -> O unit)
    (final : O unit) : O (option A) :=
  fun fr =>
    match body fr with
    | (Ret v, fr1) =>
        match final fr1 with
        | (Ret _, fr2) => (Ret (Some v), fr2)
        | (Raise e, fr2) => (Raise e, fr2)
        end
    | (Raise err, fr1) =>
        match handler err fr1 with
        | (Ret _, fr2) =>
            match final fr2 with
            | (Ret _, fr3) => (Ret None, fr3)
            | (Raise e, fr3) => (Raise e, fr3)
            end
        | (Raise e', fr2) =>
            match final fr2 with
            | (Ret _, fr3) => (Raise e', fr3)
            | (Raise e, fr3) => (Raise e, fr3)
            end
        end
    end.

Variable sg : singletons.

(** [summary.get('error', {}).get('flag') if summary.get('error')
    else 'OK'].  The [{}] built for the default is never reached by any
    reference and is not allocated here. *)
Definition error_flag (summary : value) : M value :=
  error <- py_get summary "error" ;;
  t <- py_truthy error ;;
  if t then (error' <- py_get summary "error" ;; py_get error' "flag")
  else ret (VStr OnFileProcErr.OK).

(** Lines 218 to 220: the site name goes from the totals to the stage. *)
Definition move_site_name (job_payload summary : value) : M unit :=
  tot <- py_getitem summary "totals" ;;
  site_name <- py_get tot "site_name" ;;
  t <- py_truthy site_name ;;
  if t then
    (tot1 <- py_getitem summary "totals" ;;
     v <- py_getitem tot1 "site_name" ;;
     stage <- py_getitem job_payload proc_name ;;
     py_setitem stage "site_name" v ;;;
     tot2 <- py_getitem summary "totals" ;;
     py_delitem tot2 "site_name")
  else ret tt.

(** Lines 238 to 241: one turn of the loop over [mv_out_arr]. *)
Definition move_out (job_payload summ_src : value) (key : string) : M unit :=
  present <- py_contains key summ_src ;;
  if present then
    (v <- py_getitem summ_src key ;;
     stage <- py_getitem job_payload proc_name ;;
     py_setitem stage key v ;;;
     py_delitem summ_src key)
  else ret tt.

(** Line 226: the status of the stage. *)
Definition set_status (job_payload flag : value) : M unit :=
  stage <- py_getitem job_payload proc_name ;;
  py_setitem stage "status"
    (VStr (if eq_str flag OnFileProcErr.FAIL then "error" else "finished")).

(** Line 227: [summ_src = job_payload[proc_name]['summary'] =
    dict(process_results_doc)]. *)
Definition attach_summary (job_payload doc : value) : M value :=
  copy <- py_dict doc ;;
  stage <- py_getitem job_payload proc_name ;;
  py_setitem stage "summary" copy ;;;
  ret copy.

(** Lines 212 to 247: the file is routed and the job is recorded. *)
Definition route_and_record (files_path : dict) (file : pending_file)
    (start_proc_file_time : Z) (job_payload : value) (job_id : string)
    (summary : value) : O (option result) :=
  flag <- lift (error_flag summary) ;;
  let to_path :=
    if eq_str flag OnFileProcErr.FAIL then path_of files_path "err_path"
    else path_of files_path "ok_path" in
  invoke (CallMove (file_name file) (path_of files_path "repo_path") to_path)
    (move_file (files_mgr sg) (file_name file)
       (path_of files_path "repo_path") to_path) ;;;
  lift (log_info "File moved Successfully") ;;;
  lift (move_site_name job_payload summary) ;;;
  doc <- lift (create_process_doc start_proc_file_time summary) ;;
  set_process_results_doc doc ;;;
  lift (json_dumps summary) ;;;
  lift (log_info ("Process finished for file : " ++ file_name file)) ;;;
  lift (set_status job_payload flag) ;;;
  summ_src <- lift (attach_summary job_payload doc) ;;
  lift (for_each mv_out_arr (move_out job_payload summ_src)) ;;;
  invoke (CallUpdateJob job_id)
    (update_job (mongo_common_collections sg) job_id job_payload) ;;;
  lift (set_task_id VNone) ;;;
  ret (Some (mkResult (file_name file) doc)).

(** What lines 193 to 210 hand over to the rest of the body. *)
Record transformed : Type := mkTransformed {
  tr_start : Z;
  tr_job_payload : value;
  tr_job_id : string;
  tr_summary : value
}.

(** Lines 193 to 210: the job is opened and the file transformed. *)
Definition open_job_and_transform (file : pending_file) : O transformed :=
  start_proc_file_time <- lift datetime_now ;;
  lift (log_info "###### File Process Start : ========> : ") ;;;
  lift (log_info ("Processing file : " ++ file_name file)) ;;;
  stage <- lift (alloc [("start_time", VIso start_proc_file_time);
                        ("status", VStr "processing")]) ;;
  job_payload <- lift (alloc [("process_id", VStr my_proc_name);
                              ("file", VStr (file_name file));
                              ("star_date", VIso start_proc_file_time);
                              (proc_name, stage)]) ;;
  job_id <- invoke CallCreateJob
              (create_job (mongo_common_collections sg) job_payload) ;;
  lift (set_task_id (VStr job_id)) ;;;
  summary <- invoke (CallTransform (file_name file))
               (import_feed_file (file_parser sg) file job_id) ;;
  ret (mkTransformed start_proc_file_time job_payload job_id summary).

(** The body of the inner [try], after a file was selected. *)
Definition process_selected (files_path : dict) (file : pending_file)
  : O (option result) :=
  tr <- open_job_and_transform file ;;
  route_and_record files_path file (tr_start tr) (tr_job_payload tr)
    (tr_job_id tr) (tr_summary tr).

(** The body of the inner [try]. *)
Definition try_body (files_path : dict) (reverse_time_order : bool)
  : O (option result) :=
  selected <- invoke CallSelect
                (get_first_available_file (files_mgr sg) files_path
                   reverse_time_order) ;;
  set_file_to_proc selected ;;;
  match selected with
  | None => ret None
  | Some file => process_selected files_path file
  end.

(** The inner [except]. *)
Definition except_block (err : exn) : O unit :=
  lift (unexpected_err err) ;;;
  set_local_err (Some err).

(** The [finally]. *)
Definition finally_block : O unit :=
  fun fr =>
    match file_to_proc fr with
    | Some file =>
        (invoke (CallCleanup (file_name file) (local_err fr))
           (clean_file_process_q (files_mgr sg) (file_name file)
              (local_err fr)) ;;;
         lift (log_info "Pending Files Q - FINAL update :  SUCCESSFUL")) fr
    | None => (Ret tt, fr)
    end.

(** Lines 257 to 260, reached when the inner [try] did not return. *)
Definition after_try : O (option result) :=
  fun fr =>
    match file_to_proc fr with
    | None => (Ret None, fr)
    | Some file =>
        (Ret (Some (mkResult (file_name file) (process_results_doc fr))), fr)
    end.

(** [process_next_file(files_path, reverse_time_order)] *)
Definition process_next_file (files_path : dict) (reverse_time_order : bool)
  : O (option result) :=
  try_except
    (returned <- try_except_finally
                   (try_body files_path reverse_time_order)
                   except_block finally_block ;;
     match returned with
     | Some v => ret v
     | None => after_try
     end)
    (fun err => lift (unexpected_err err) ;;; raise err).

(** One invocation from a world: what it returns or raises, the world it
    leaves and the calls it made. *)
Definition run (files_path : dict) (reverse_time_order : bool) (w : world)
  : outcome (option result) * world * list call :=
  let (r, fr) := process_next_file files_path reverse_time_order (enter w) in
  (r, fr_world fr, calls fr).

End Orchestrator.

Arguments lift {os A} m fr /.
Arguments invoke {os A} c m fr /.
Arguments set_local_err {os} e fr /.
Arguments set_file_to_proc {os} f fr /.
Arguments set_process_results_doc {os} v fr /.
Arguments try_except_finally {os A} body handler final fr /.

(** ** The rest of the module *)

(** [update_history(doc)] *)
Definition update_history {os : OS} (doc : value) : M unit :=
  try_except
    (json_dumps doc ;;;
     log_info "Inserting document to history: ")
    (fun err => unexpected_err err ;;; raise err).

Section Program.
Context {os : OS}.

(** The module state beside the world: the field [db_cnx] of the
    [MongoManager] singleton and the globals [local_db_cnx] and
    [proc_files_h]. *)
Record program : Type := mkProgram {
  pg_world : world;
  db_cnx : value;
  local_db_cnx : value;
  proc_files_h : value
}.

Definition P (A : Type) : Type := comp program A.

Definition in_world {A} (m : M A) : P A :=
  fun pg =>
    let (r, w') := m (pg_world pg) in
    (r, mkProgram w' (db_cnx pg) (local_db_cnx pg) (proc_files_h pg)).

Definition set_db_cnx (v : value) : P unit :=
  fun pg =>
    (Ret tt, mkProgram (pg_world pg) v (local_db_cnx pg) (proc_files_h pg)).

Definition set_local_db_cnx (v : value) : P unit :=
  fun pg => (Ret tt, mkProgram (pg_world pg) (db_cnx pg) v (proc_files_h pg)).

Definition set_proc_files_h (v : value) : P unit :=
  fun pg => (Ret tt, mkProgram (pg_world pg) (db_cnx pg) (local_db_cnx pg) v).

(** [MongoManager.get_db_cnx] and [MongoManager.get_db_name] *)
Definition get_db_cnx : P value :=
  cnx <- in_world (alloc [("connected", VBool true)]) ;;
  set_db_cnx cnx ;;;
  ret cnx.

Definition get_db_name (cnx : value) : string := "file_processor_db".

(** [FilesManager.init] and [FileParser.init] *)
Definition files_mgr_init : M unit := log_info "Files Manager initialized".

Definition file_parser_init : M unit := log_info "File Parser initialized".

(** [init()] *)
Definition init : P unit :=
  try_except
    (cnx <- get_db_cnx ;;
     set_local_db_cnx cnx ;;;
     in_world (log_info ("Connected OK to mongo database ==> "
                         ++ get_db_name cnx)) ;;;
     h <- in_world (alloc [("collection", VStr "processedFilesH")]) ;;
     set_proc_files_h h ;;;
     in_world files_mgr_init ;;;
     in_world file_parser_init)
    (fun err => in_world (unexpected_err err) ;;; raise err).

(** The dict [files_path] that [main] builds. *)
Definition main_files_path : dict :=
  [("repo_path", VStr "./input_files"); ("ok_path", VStr "./processed_files");
   ("err_path", VStr "./error_files")].

(** The call of [process_next_file] from [main]. *)
Definition call_process_next_file (files_path : dict) (reverse : bool)
  : P (option result) :=
  fun pg =>
    let '(r, w', _) := run source_singletons files_path reverse (pg_world pg) in
    (r, mkProgram w' (db_cnx pg) (local_db_cnx pg) (proc_files_h pg)).

(** [main()] *)
Definition main : P unit :=
  try_except
    (init ;;;
     in_world (makedirs "./input_files") ;;;
     in_world (makedirs "./processed_files") ;;;
     in_world (makedirs "./error_files") ;;;
     result <- call_process_next_file main_files_path false ;;
     match result with
     | Some r =>
         in_world (json_dumps (hist_doc r)) ;;;
         in_world (log_info "Processing complete: ")
     | None => in_world (log_info "No files to process")
     end)
    (fun e => in_world (unexpected_err e)).

End Program.

Arguments in_world {os A} m pg /.
Arguments set_db_cnx {os} v pg /.
Arguments set_local_db_cnx {os} v pg /.
Arguments set_proc_files_h {os} v pg /.

(** ** A small file system *)

(** An in-memory file system to run the pipeline on: each path that
    exists is listed with its kind.  It implements the [os] calls for
    the paths the pipeline forms (a directory and the names in it). *)
Module SimpleFS.

Inductive node : Type := File | Dir.

Definition t := list (string * node).

Fixpoint lookup (p : string) (fs : t) : option node :=
  match fs with
  | [] => None
  | (p', n) :: fs' => if String.eqb p p' then Some n else lookup p fs'
  end.

Fixpoint remove (p : string) (fs : t) : t :=
  match fs with
  | [] => []
  | (p', n) :: fs' =>
      if String.eqb p p' then remove p fs' else (p', n) :: remove p fs'
  end.

Fixpoint strip_prefix (pre s : string) : option string :=
  match pre, s with
  | EmptyString, _ => Some s
  | String a pre', String b s' =>
      if Ascii.eqb a b then strip_prefix pre' s' else None
  | String _ _, EmptyString => None
  end.

Fixpoint has_slash (s : string) : bool :=
  match s with
  | EmptyString => false
  | String c s' => Ascii.eqb c "/" || has_slash s'
  end.

(** The name of [p] inside the directory [dir], when [p] lies directly
    in it. *)
Definition child_name (dir p : string) : option string :=
  let pre := if ends_with_slash dir then dir else (dir ++ "/")%string in
  match strip_prefix pre p with
  | Some name =>
      if String.eqb name "" || has_slash name then None else Some name
  | None => None
  end.

Fixpoint children (dir : string) (fs : t) : list string :=
  match fs with
  | [] => []
  | (p, _) :: fs' =>
      match child_name dir p with
      | Some name => name :: children dir fs'
      | None => children dir fs'
      end
  end.

Definition exists_ (p : string) (fs : t) : bool :=
  match lookup p fs with Some _ => true | None => false end.

Definition isfile (p : string) (fs : t) : bool :=
  match lookup p fs with Some File => true | _ => false end.

Definition listdir (p : string) (fs : t) : exn + list string :=
  match lookup p fs with
  | Some Dir => inr (children p fs)
  | Some File => inl (OSError "NotADirectoryError")
  | None => inl (OSError "FileNotFoundError")
  end.

Definition makedirs (p : string) (fs : t) : exn + t :=
  match lookup p fs with
  | Some Dir => inr fs
  | Some File => inl (OSError "FileExistsError")
  | None => inr (fs ++ [(p, Dir)])
  end.

Definition rename (src dst : string) (fs : t) : exn + t :=
  match lookup src fs with
  | None => inl (OSError "FileNotFoundError")
  | Some n =>
      match lookup dst fs with
      | Some Dir => inl (OSError "IsADirectoryError")
      | _ => inr (remove dst (remove src fs) ++ [(dst, n)])
      end
  end.

#[export] Instance simple_os : OS := {|
  FS := t;
  os_path_exists := exists_;
  os_path_isfile := isfile;
  os_listdir := listdir;
  os_makedirs := makedirs;
  os_rename := rename
|}.

End SimpleFS.

(** ** What the statements are about *)

(** [x] is before every name of [l]. *)
Definition before_all (r : bool) (x : string) (l : list string) : Prop :=
  forall y, In y l -> name_le r x y = true.

Fixpoint sorted (r : bool) (l : list string) : Prop :=
  match l with
  | [] => True
  | x :: l' => before_all r x l' /\ sorted r l'
  end.

(** A watch directory with two files and a sub-directory. *)
Definition demo_fs : SimpleFS.t :=
  [("in", SimpleFS.Dir); ("in/b.csv", SimpleFS.File);
   ("in/a.csv", SimpleFS.File); ("in/sub", SimpleFS.Dir)].

Definition demo_paths : dict :=
  [("repo_path", VStr "in"); ("ok_path", VStr "ok");
   ("err_path", VStr "err")].

Definition demo_world : @world SimpleFS.simple_os :=
  @mkWorld SimpleFS.simple_os demo_fs [] [] 0 VNone [1000000; 1250000]%Z
    None [].

(** The kinds of call that are counted. *)
Definition is_move (c : call) : bool :=
  match c with CallMove _ _ _ => true | _ => false end.

Definition is_update (c : call) : bool :=
  match c with CallUpdateJob _ => true | _ => false end.

Definition is_cleanup (c : call) : bool :=
  match c with CallCleanup _ _ => true | _ => false end.

(** How many calls of a kind a record holds. *)
Definition count (p : call -> bool) (cs : list call) : nat :=
  length (filter p cs).

(** The calls of [process_selected] when nothing raises. *)
Definition selected_calls (name : string) (from_path to_path : value)
    (job_id : string) : list call :=
  [CallCreateJob; CallTransform name; CallMove name from_path to_path;
   CallUpdateJob job_id].

Definition prefix_of (cs full : list call) : Prop :=
  exists rest, full = cs ++ rest.

(** The frame in which the body of the inner [try] goes on once the
    selector has returned [file]. *)
Definition selected_frame {os : OS} (w : world) (file : pending_file)
  : frame :=
  mkFrame w [CallSelect] None (Some file) VNone.

(** What the inner [except] leaves of an outcome of the body: the error
    it keeps and the world after its log line. *)
Definition caught {A} (r : outcome A) : option exn :=
  match r with Ret _ => None | Raise e => Some e end.

Definition after_except {os : OS} {A} (r : outcome A) (w : world)
  : world :=
  match r with
  | Ret _ => w
  | Raise e => with_log (w_log w ++ [LogError e]) w
  end.

(** The cleanup step returns whenever it is called. *)
Definition cleanup_returns {os : OS} (sg : singletons) : Prop :=
  forall name err w,
    exists w', clean_file_process_q (files_mgr sg) name err w = (Ret tt, w').

(** The cleanup step raises [e] whenever it is called. *)
Definition cleanup_raises {os : OS} (sg : singletons) (e : exn) : Prop :=
  forall name err w,
    exists w', clean_file_process_q (files_mgr sg) name err w = (Raise e, w').

(** A configuration whose watch directory is a regular file. *)
Definition file_as_watch_dir : dict :=
  [("repo_path", VStr "in/a.csv"); ("ok_path", VStr "ok");
   ("err_path", VStr "err")].

(** A file system on which the success directory cannot be made: its
    path is a regular file. *)
Definition blocked_fs : SimpleFS.t :=
  [("in", SimpleFS.Dir); ("in/b.csv", SimpleFS.File);
   ("in/a.csv", SimpleFS.File); ("ok", SimpleFS.File)].

Definition blocked_world : @world SimpleFS.simple_os :=
  @mkWorld SimpleFS.simple_os blocked_fs [] [] 0 VNone [1000000; 1250000]%Z
    None [].

(** A count of the totals as [tot.get] may find it: an integer, [None],
    or no entry. *)
Definition is_count (v : option value) : bool :=
  match v with
  | None | Some VNone | Some (VInt _) => true
  | _ => false
  end.

(** The integer that [x or fallback] gives for such a count. *)
Definition count_or (fallback : Z) (v : option value) : Z :=
  match v with
  | Some (VInt n) => if Z.eqb n 0 then fallback else n
  | _ => fallback
  end.

(** The integers up to which every integer is a float: 2^53. *)
Definition exact_float_bound : Z := 9007199254740992.

(** A count of the totals, when it is an integer, is within a bound. *)
Definition count_within (bound : Z) (o : option value) : Prop :=
  forall n, o = Some (VInt n) -> (Z.abs n <= bound)%Z.

(** The largest finite float, [sys.float_info.max]: 2^1024 - 2^971. *)
Definition float_max : Z := Eval vm_compute in (2 ^ 1024 - 2 ^ 971)%Z.

(** A number in the range of the finite floats: not [inf]. *)
Definition finite (q : Q) : Prop := (Qabs q <= inject_Z float_max)%Q.

(** The document [create_process_doc] builds for [records_ok] accepted
    records, the divisor [raw] of the percentage and the numerator
    [trans] of the throughput, from a summary whose entries are its
    totals [tot] and its error [ev]. *)
Definition process_doc (start now records_ok raw trans : Z)
    (tot ev : value) : dict :=
  let ms := elapsed_millis start now in
  let secs := Qred (inject_Z ms / inject_Z 1000) in
  let ratio := Qred (inject_Z records_ok / inject_Z raw) in
  [("start_time", VIso start); ("end_time", VIso now);
   ("elapsed_time_in_millisecs", VInt ms);
   ("elapsed_time_in_secs", VFloat secs);
   ("valid_transac_perc", VFloat (Qred (ratio * inject_Z 100)));
   ("tps", VFloat (Qred (inject_Z trans
                         / (if Z.eqb ms 0 then inject_Z 1 else secs))));
   ("totals", tot)]
  ++ (if is_dict ev then [("error", ev)] else []).

(** A summary with no elapsed time, no line and no transaction. *)
Definition zero_totals_world : @world SimpleFS.simple_os :=
  @mkWorld SimpleFS.simple_os []
    [[("totals", VRef 0); ("error", VNone)];
     [("raw_lines", VInt 0); ("records_ok", VInt 0);
      ("transactions", VInt 0)]]
    [] 0 VNone [2000000%Z] None [].

(** A dict that holds no reference. *)
Definition plain (d : dict) : bool :=
  forallb (fun kv => negb (is_dict (snd kv))) d.

(** The site name of the totals as [tot.get] may find it: a string,
    [None], or no entry. *)
Definition is_tag (o : option value) : bool :=
  match o with
  | None | Some VNone | Some (VStr _) => true
  | _ => false
  end.

(** The totals hold a site name that line 218 finds true. *)
Definition tag_moves (td : dict) : bool :=
  match dict_get "site_name" td with
  | Some (VStr name) => negb (String.eqb name "")
  | _ => false
  end.

(** The totals and the stage after lines 218 to 220. *)
Definition totals_after (td : dict) : dict :=
  if tag_moves td then dict_del "site_name" td else td.

Definition stage_after (std td : dict) : dict :=
  if tag_moves td
  then dict_set "site_name" (or_none (dict_get "site_name" td)) std
  else std.

(** The flag line 212 reads from the error [ev] of a summary. *)
Definition flag_of (h : heap) (ev : value) : value :=
  match ev with
  | VRef e =>
      match heap_get e h with
      | Some (kv :: ed) => or_none (dict_get "flag" (kv :: ed))
      | _ => VStr OnFileProcErr.OK
      end
  | _ => VStr OnFileProcErr.OK
  end.

(** The error of a summary is [None] or a dict with no reference in it,
    other than the totals and the stage. *)
Definition error_ok (h : heap) (t st : loc) (ev : value) : Prop :=
  match ev with
  | VNone => True
  | VRef e =>
      e <> t /\ e <> st /\
      exists ed, heap_get e h = Some ed /\ plain ed = true
  | _ => False
  end.

(** The state in which lines 212 to 247 start: the job is opened and
    stored, and the summary is one the transformer built. *)
Record consumable {os : OS} (w : world) (job_id : string) (p st s t : loc)
    (std td : dict) (ev : value) (ok : Z) : Prop := {
  cs_payload :
    exists x1 x2 x3,
      heap_get p (w_heap w)
      = Some [("process_id", x1); ("file", x2); ("star_date", x3);
              (proc_name, VRef st)];
  cs_stage : heap_get st (w_heap w) = Some std;
  cs_stored : dict_get job_id (w_jobs w) = Some (VRef p);
  cs_summary :
    heap_get s (w_heap w) = Some [("totals", VRef t); ("error", ev)];
  cs_totals : heap_get t (w_heap w) = Some td;
  cs_plain : plain td = true;
  cs_records_ok : dict_get "records_ok" td = Some (VInt ok);
  cs_raw_lines : is_count (dict_get "raw_lines" td) = true;
  cs_transactions : is_count (dict_get "transactions" td) = true;
  cs_site_name : is_tag (dict_get "site_name" td) = true;
  cs_error : error_ok (w_heap w) t st ev;
  cs_apart : p <> st /\ st <> s /\ st <> t
}.

(** The first file of the watch directory, and the frames in which the
    rest of the body starts for it: with the transformer succeeding,
    and with its await raising. *)
Definition demo_file : pending_file := mkPending "a.csv" "in/a.csv".

Definition transformed_demo : frame :=
  Eval vm_compute in
    snd (open_job_and_transform source_singletons demo_file
           (selected_frame demo_world demo_file)).

Definition failing_world : @world SimpleFS.simple_os :=
  @mkWorld SimpleFS.simple_os demo_fs [] [] 0 VNone [1000000; 1250000]%Z
    (Some (RuntimeError "parse error")) [].

Definition transformed_failing : frame :=
  Eval vm_compute in
    snd (open_job_and_transform source_singletons demo_file
           (selected_frame failing_world demo_file)).

(** Successive calls of [get_sequence], one per name. *)
Fixpoint get_sequences (names : list string) : comp dict (list value) :=
  match names with
  | [] => ret []
  | name :: rest =>
      v <- MongoCommonCollections.get_sequence name ;;
      vs <- get_sequences rest ;;
      ret (v :: vs)
  end.

(** How many times a name occurs in a list. *)
Definition occurrences (name : string) (l : list string) : nat :=
  length (filter (String.eqb name) l).

(** The counter a sequences dict holds for a name: 0 when it has none. *)
Definition sequence_of (sequences : dict) (name : string) : Z :=
  match dict_get name sequences with
  | Some (VInt n) => n
  | _ => 0%Z
  end.

(** A sequences dict as the method leaves it: it holds integers. *)
Definition counters (sequences : dict) : Prop :=
  forall name v, dict_get name sequences = Some v -> exists n, v = VInt n.

(** The ids of the stored jobs are among those the counter has given. *)
Definition store_ok {os : OS} (w : world) : Prop :=
  (0 <= w_job_counter w)%Z /\
  forall id v, dict_get id (w_jobs w) = Some v ->
    exists n, (1 <= n <= w_job_counter w)%Z /\ id = job_name n.

(** The watch directory above, with its entries in another order. *)
Definition demo_fs_reordered : SimpleFS.t :=
  [("in/a.csv", SimpleFS.File); ("in/sub", SimpleFS.Dir);
   ("in", SimpleFS.Dir); ("in/b.csv", SimpleFS.File)].

(** A computation that touches nothing but the heap and the clock. *)
Definition quiet {os : OS} {A} (m : M A) : Prop :=
  forall w r w',
    m w = (r, w') ->
    w_log w' = w_log w /\ w_fs w' = w_fs w /\ w_jobs w' = w_jobs w /\
    w_job_counter w' = w_job_counter w /\ w_task_id w' = w_task_id w.

(** A summary that has no totals. *)
Definition no_totals_world : @world SimpleFS.simple_os :=
  @mkWorld SimpleFS.simple_os [] [[("error", VNone)]] [] 0 VNone [2000000%Z]
    None [].

(** Whether the await of the transformer raises in a world. *)
Definition sleep_fails {os : OS} (w : world) : bool :=
  match w_sleep w with Some _ => true | None => false end.

(** The directories [main] ensures, made one after the other. *)
Fixpoint make_dirs {os : OS} (dirs : list string) (fs : FS) : exn + FS :=
  match dirs with
  | [] => inr fs
  | d :: rest =>
      match os_makedirs d fs with
      | inl e => inl e
      | inr fs' => make_dirs rest fs'
      end
  end.

Definition main_dirs : list string :=
  ["./input_files"; "./processed_files"; "./error_files"].

(** A start of the program with one file waiting in the watch
    directory. *)
Definition main_fs : SimpleFS.t :=
  [("./input_files", SimpleFS.Dir); ("./input_files/x.csv", SimpleFS.File)].

Definition main_start : @program SimpleFS.simple_os :=
  @mkProgram SimpleFS.simple_os
    (@mkWorld SimpleFS.simple_os main_fs [] [] 0 VNone [1000000; 1250000]%Z
       None [])
    VNone VNone VNone.

(** * Properties *)

(** ** Dicts and the heap *)

Lemma dict_get_set (k k' : string) (v : value) (d : dict) :
  dict_get k (dict_set k' v d) =
  if String.eqb k k' then Some v else dict_get k d.
Proof.
  induction d as [|[k0 v0] d IH]; simpl.
  - destruct (String.eqb k k'); reflexivity.
  - destruct (String.eqb k' k0) eqn:E0; simpl.
    + apply String.eqb_eq in E0; subst k0.
      destruct (String.eqb k k'); reflexivity.
    + rewrite IH. destruct (String.eqb k k0) eqn:E1; [|reflexivity].
      apply String.eqb_eq in E1; subst k0.
      rewrite String.eqb_sym, E0. reflexivity.
Qed.

Lemma dict_get_del (k k' : string) (d : dict) :
  dict_get k (dict_del k' d) =
  if String.eqb k k' then None else dict_get k d.
Proof.
  induction d as [|[k0 v0] d IH]; simpl.
  - destruct (String.eqb k k'); reflexivity.
  - destruct (String.eqb k' k0) eqn:E0; simpl.
    + apply String.eqb_eq in E0; subst k0. rewrite IH.
      destruct (String.eqb k k'); reflexivity.
    + rewrite IH. destruct (String.eqb k k0) eqn:E1; [|reflexivity].
      apply String.eqb_eq in E1; subst k0.
      rewrite String.eqb_sym, E0. reflexivity.
Qed.

Lemma heap_get_lt (l : loc) (h : heap) (d : dict) :
  heap_get l h = Some d -> l < length h.
Proof.
  induction h as [|d' h IH]; simpl; [discriminate|].
  destruct (Nat.eqb l (length h)) eqn:E.
  - apply Nat.eqb_eq in E. lia.
  - intros H. apply IH in H. lia.
Qed.

Lemma length_heap_set (l : loc) (d : dict) (h : heap) :
  length (heap_set l d h) = length h.
Proof.
  induction h as [|d' h IH]; simpl; [reflexivity|].
  destruct (Nat.eqb l (length h)); simpl; congruence.
Qed.

Lemma heap_get_set (l l' : loc) (d d0 : dict) (h : heap) :
  heap_get l' h = Some d0 ->
  heap_get l (heap_set l' d h) =
  if Nat.eqb l l' then Some d else heap_get l h.
Proof.
  induction h as [|d' h IH]; simpl; [discriminate|].
  destruct (Nat.eqb l' (length h)) eqn:E'; intros H; simpl.
  - apply Nat.eqb_eq in E'; subst l'.
    destruct (Nat.eqb l (length h)); reflexivity.
  - rewrite length_heap_set.
    destruct (Nat.eqb l (length h)) eqn:E.
    + apply Nat.eqb_eq in E; subst l. rewrite Nat.eqb_sym, E'. reflexivity.
    + apply IH, H.
Qed.

(** ** The order on file names *)

Lemma ascii_compare_refl (a : ascii) : Ascii.compare a a = Eq.
Proof. unfold Ascii.compare. apply N.compare_refl. Qed.

Lemma ascii_compare_lt_trans (a b c : ascii) :
  Ascii.compare a b = Lt -> Ascii.compare b c = Lt -> Ascii.compare a c = Lt.
Proof.
  unfold Ascii.compare. rewrite !N.compare_lt_iff. lia.
Qed.

Lemma string_leb_trans (a b c : string) :
  String.leb a b = true -> String.leb b c = true -> String.leb a c = true.
Proof.
  unfold String.leb. revert b c.
  induction a as [|x a IH]; intros [|y b] [|z c]; simpl;
    try reflexivity; try discriminate.
  destruct (Ascii.compare x y) eqn:Exy; try discriminate;
    destruct (Ascii.compare y z) eqn:Eyz; try discriminate; intros Hab Hbc.
  - apply Ascii.compare_eq_iff in Exy, Eyz. subst.
    rewrite ascii_compare_refl. eapply IH; eassumption.
  - apply Ascii.compare_eq_iff in Exy. subst. rewrite Eyz. reflexivity.
  - apply Ascii.compare_eq_iff in Eyz. subst. rewrite Exy. reflexivity.
  - rewrite (ascii_compare_lt_trans _ _ _ Exy Eyz). reflexivity.
Qed.

Lemma name_le_trans (r : bool) (a b c : string) :
  name_le r a b = true -> name_le r b c = true -> name_le r a c = true.
Proof.
  unfold name_le. destruct r; intros H1 H2;
    eauto using string_leb_trans.
Qed.

Lemma name_le_total (r : bool) (a b : string) :
  name_le r a b = true \/ name_le r b a = true.
Proof.
  unfold name_le.
  destruct r; [apply (String.leb_total b a)|apply String.leb_total].
Qed.

Lemma name_le_refl (r : bool) (a : string) : name_le r a a = true.
Proof. destruct (name_le_total r a a); assumption. Qed.

(** ** Sorting *)

Lemma sort_insert_In (r : bool) (x y : string) (l : list string) :
  In y (sort_insert r x l) <-> y = x \/ In y l.
Proof.
  induction l as [|z l IH]; simpl.
  - intuition congruence.
  - destruct (name_le r x z); simpl; rewrite ?IH; intuition congruence.
Qed.

Lemma py_sort_In (r : bool) (y : string) (l : list string) :
  In y (py_sort r l) <-> In y l.
Proof.
  induction l as [|x l IH]; simpl; [tauto|].
  rewrite sort_insert_In, IH. intuition congruence.
Qed.

Lemma sort_insert_sorted (r : bool) (x : string) (l : list string) :
  sorted r l -> sorted r (sort_insert r x l).
Proof.
  induction l as [|z l IH]; simpl.
  - intros _. split; [intros y []|exact I].
  - intros [Hz Hl]. destruct (name_le r x z) eqn:E; simpl.
    + split; [|split; assumption].
      intros y [<-|Hy]; [assumption|].
      eapply name_le_trans; [exact E|]. apply Hz, Hy.
    + split; [|apply IH, Hl].
      intros y Hy. apply sort_insert_In in Hy. destruct Hy as [->|Hy].
      * destruct (name_le_total r x z) as [H|H]; congruence.
      * apply Hz, Hy.
Qed.

Lemma py_sort_sorted (r : bool) (l : list string) : sorted r (py_sort r l).
Proof.
  induction l as [|x l IH]; simpl; [exact I|].
  apply sort_insert_sorted, IH.
Qed.

(** The first name of the sorted list is one of the names and is before
    all of them. *)
Lemma py_sort_first (r : bool) (l : list string) :
  l <> [] ->
  exists first rest,
    py_sort r l = first :: rest /\ In first l /\ before_all r first l.
Proof.
  intros Hne.
  destruct (py_sort r l) as [|first rest] eqn:E.
  - destruct l as [|x l]; [congruence|].
    assert (In x (py_sort r (x :: l))) as H
      by (apply py_sort_In; left; reflexivity).
    rewrite E in H. destruct H.
  - exists first, rest. split; [reflexivity|].
    assert (In first l) as Hin
      by (apply (py_sort_In r); rewrite E; left; reflexivity).
    split; [exact Hin|].
    intros y Hy. apply (py_sort_In r) in Hy. rewrite E in Hy.
    pose proof (py_sort_sorted r l) as Hs. rewrite E in Hs.
    destruct Hs as [Hb _]. destruct Hy as [<-|Hy].
    + apply name_le_refl.
    + apply Hb, Hy.
Qed.

(** ** The selector *)

Section Selector.
Context {os : OS}.

(** The selector only reads the world. *)
Lemma get_first_available_file_pure (files_path : dict) (reverse : bool)
    (w w' : world) (r : outcome (option pending_file)) :
  FilesManager.get_first_available_file files_path reverse w = (r, w') ->
  w' = w.
Proof.
  unfold FilesManager.get_first_available_file, bind, py_truthy, get_heap,
    ret, as_path, path_exists, listdir, raise.
  simpl.
  destruct (truthy (w_heap w) (path_of files_path "repo_path")); simpl;
    [|congruence].
  destruct (path_of files_path "repo_path"); simpl; try congruence.
  destruct (os_path_exists s (w_fs w)); simpl; [|congruence].
  destruct (os_listdir s (w_fs w)) as [e|names]; [congruence|].
  destruct (filter _ names); [congruence|].
  destruct (py_sort reverse _); congruence.
Qed.

(** When the selector finds nothing, the orchestrator returns [None]
    after this one call, and the world is as it was. *)
Lemma run_nothing_selected (files_path : dict) (reverse : bool)
    (w w' : world) :
  FilesManager.get_first_available_file files_path reverse w
    = (Ret None, w') ->
  run source_singletons files_path reverse w = (Ret None, w, [CallSelect]).
Proof.
  intros H. pose proof (get_first_available_file_pure _ _ _ _ _ H). subst w'.
  unfold run, process_next_file, try_body.
  cbn -[FilesManager.get_first_available_file].
  rewrite H. reflexivity.
Qed.

End Selector.

(** ** The job store *)

Section JobStore.
Context {os : OS}.

(** C3, amended: [update_job] with a job id that the store does not hold
    leaves the world, so the stored records, as it was and raises
    nothing, and it returns [True]; no call of [update_job] that returns
    gives [False]. *)
Theorem update_job_unknown_id (job_id : string) (payload : value)
    (w : world) :
  (dict_get job_id (w_jobs w) = None ->
   MongoCommonCollections.update_job job_id payload w = (Ret true, w)) /\
  (forall b w',
     MongoCommonCollections.update_job job_id payload w = (Ret b, w') ->
     b = true).
Proof.
  unfold MongoCommonCollections.update_job. split.
  - intros H. rewrite H. reflexivity.
  - intros b w'. destruct (dict_get job_id (w_jobs w)) as [target|].
    + unfold py_update, deref, store, log_info. cbn.
      destruct target; try discriminate.
      destruct (heap_get l (w_heap w)); [|discriminate].
      destruct payload; try discriminate.
      destruct (heap_get l0 (w_heap w)); [|discriminate].
      cbn. congruence.
    + congruence.
Qed.

End JobStore.

(** With no job in the store, [update_job] on the id [JOB_9] returns
    [True]. *)
Lemma update_job_unknown_id_witness :
  MongoCommonCollections.update_job "JOB_9" (VRef 0) demo_world
  = (Ret true, demo_world).
Proof.
  apply (update_job_unknown_id "JOB_9" (VRef 0) demo_world). reflexivity.
Defined.

(** C3 as stated fails: for an id the store does not hold, the call
    does not return [False]. *)
Lemma update_job_unknown_id_not_false :
  dict_get "JOB_9" (w_jobs demo_world) = None /\
  fst (MongoCommonCollections.update_job "JOB_9" (VRef 0) demo_world)
    = Ret true /\
  fst (MongoCommonCollections.update_job "JOB_9" (VRef 0) demo_world)
    <> Ret false.
Proof. repeat split. discriminate. Qed.

(** ** The relocator *)

Section Relocator.
Context {os : OS}.

(** [move_file] changes only the file system and the log. *)
Lemma move_file_frame (name : string) (from_path to_path : value)
    (w : world) :
  exists b fs lg,
    FilesManager.move_file name from_path to_path w
    = (Ret b, with_log lg (with_fs fs w)).
Proof.
  destruct w as [fs h jobs n tid clk slp lg].
  unfold FilesManager.move_file, path_join, as_path, makedirs, path_exists,
    rename, unexpected_err, with_log, with_fs.
  destruct from_path; cbn; try (eexists _, _, _; reflexivity).
  destruct to_path; cbn; try (eexists _, _, _; reflexivity).
  destruct (os_makedirs s0 fs) as [e|fs1]; cbn;
    [eexists _, _, _; reflexivity|].
  destruct (os_path_exists (os_path_join s name) fs1); cbn;
    [|eexists _, _, _; reflexivity].
  destruct (os_rename _ _ fs1) as [e|fs2]; cbn;
    eexists _, _, _; reflexivity.
Qed.

(** [move_file] on two strings, step by step: the directory is ensured
    first, then the source is looked for, then it is renamed. *)
Lemma move_file_run (name from to : string) (w : world) :
  FilesManager.move_file name (VStr from) (VStr to) w
  = match os_makedirs to (w_fs w) with
    | inl e => (Ret false, with_log (w_log w ++ [LogError e]) w)
    | inr fs1 =>
        if os_path_exists (os_path_join from name) fs1 then
          match os_rename (os_path_join from name) (os_path_join to name)
                  fs1 with
          | inl e =>
              (Ret false,
               with_log (w_log w ++ [LogError e]) (with_fs fs1 w))
          | inr fs2 => (Ret true, with_fs fs2 w)
          end
        else (Ret false, with_fs fs1 w)
    end.
Proof.
  destruct w as [fs h jobs n tid clk slp lg].
  unfold FilesManager.move_file, path_join, as_path, makedirs, path_exists,
    rename, unexpected_err.
  cbn. destruct (os_makedirs to fs) as [e|fs1]; cbn; [reflexivity|].
  destruct (os_path_exists (os_path_join from name) fs1); cbn;
    [|reflexivity].
  destruct (os_rename _ _ fs1) as [e|fs2]; reflexivity.
Qed.

(** [move_file] with a path that is not a string: [os.path.join] raises,
    nothing is touched but the log. *)
Lemma move_file_not_a_path (name : string) (from_path to_path : value)
    (w : world) :
  (forall from to, from_path = VStr from -> to_path = VStr to -> False) ->
  FilesManager.move_file name from_path to_path w
  = (Ret false, with_log (w_log w ++ [LogError TypeError]) w).
Proof.
  intros Hno. destruct w as [fs h jobs n tid clk slp lg].
  unfold FilesManager.move_file, path_join, as_path, makedirs, path_exists,
    rename, unexpected_err.
  destruct from_path as [| | | |from| |]; cbn; try reflexivity.
  destruct to_path as [| | | |to| |]; cbn; try reflexivity.
  destruct (Hno from to eq_refl eq_refl).
Qed.

(** C10: [move_file] never raises and touches neither the heap nor the
    job store.  On two strings it first ensures the destination
    directory: a fault of [os.makedirs] is logged and gives [False] with
    the file system as it was.  Once the directory is ensured, the file
    system is the one [os.makedirs] left, also when nothing is moved: a
    source that is missing then gives [False] and nothing is logged; a
    fault of [os.rename] is logged and gives [False]; and [os.rename]
    done gives [True] with the file system it left.  A path that is not
    a string gives [False] with [TypeError] logged.  [True] is returned
    in no other case. *)
Theorem move_file_false_not_fault (name : string)
    (from_path to_path : value) (w : world) :
  exists b w',
    FilesManager.move_file name from_path to_path w = (Ret b, w') /\
    w_heap w' = w_heap w /\ w_jobs w' = w_jobs w /\
    (forall from to,
       from_path = VStr from -> to_path = VStr to ->
       (forall e,
          os_makedirs to (w_fs w) = inl e ->
          b = false /\ w_fs w' = w_fs w /\
          w_log w' = w_log w ++ [LogError e]) /\
       (forall fs1,
          os_makedirs to (w_fs w) = inr fs1 ->
          (os_path_exists (os_path_join from name) fs1 = false ->
           b = false /\ w_fs w' = fs1 /\ w_log w' = w_log w) /\
          (os_path_exists (os_path_join from name) fs1 = true ->
           (forall e,
              os_rename (os_path_join from name) (os_path_join to name) fs1
              = inl e ->
              b = false /\ w_fs w' = fs1 /\
              w_log w' = w_log w ++ [LogError e]) /\
           (forall fs2,
              os_rename (os_path_join from name) (os_path_join to name) fs1
              = inr fs2 ->
              b = true /\ w_fs w' = fs2 /\ w_log w' = w_log w)))) /\
    ((forall from to, from_path = VStr from -> to_path = VStr to -> False) ->
     b = false /\ w_fs w' = w_fs w /\
     w_log w' = w_log w ++ [LogError TypeError]) /\
    (b = true ->
     exists from to fs1,
       from_path = VStr from /\ to_path = VStr to /\
       os_makedirs to (w_fs w) = inr fs1 /\
       os_path_exists (os_path_join from name) fs1 = true /\
       os_rename (os_path_join from name) (os_path_join to name) fs1
         = inr (w_fs w')).
Proof.
  assert ((exists from to, from_path = VStr from /\ to_path = VStr to) \/
          (forall from to, from_path = VStr from -> to_path = VStr to -> False))
    as [(from & to & -> & ->)|Hno].
  { destruct from_path as [| | | |from| |];
      try (right; intros from' to'; discriminate).
    destruct to_path as [| | | |to| |];
      try (right; intros from' to' _; discriminate).
    left. exists from, to. split; reflexivity. }
  - rewrite move_file_run.
    destruct w as [fs h jobs n tid clk slp lg]. cbn [w_fs w_log w_heap w_jobs].
    destruct (os_makedirs to fs) as [e|fs1] eqn:Emk;
      [|destruct (os_path_exists (os_path_join from name) fs1) eqn:Eex;
        [destruct (os_rename (os_path_join from name) (os_path_join to name)
                     fs1) as [e|fs2] eqn:Ern|]];
      (eexists _, _; split; [reflexivity|]; cbn;
       split; [reflexivity|]; split; [reflexivity|]; split; [|split];
       [ intros from' to' [= <-] [= <-]; split;
         [ intros e' Hmk
         | intros fs1' Hmk; split;
           [ intros Hex
           | intros Hex; split; [intros e' Hrn|intros fs2' Hrn] ] ];
         try rewrite Emk in Hmk; try discriminate;
         try (injection Hmk as <-);
         try rewrite Eex in Hex; try discriminate;
         try rewrite Ern in Hrn; try discriminate;
         try (injection Hrn as <-); repeat split
       | intros Hno; destruct (Hno from to eq_refl eq_refl)
       | try discriminate ]).
    intros _. exists from, to, fs1. repeat split; assumption.
  - rewrite (move_file_not_a_path _ _ _ _ Hno).
    eexists _, _. split; [reflexivity|].
    destruct w as [fs h jobs n tid clk slp lg]. cbn.
    split; [reflexivity|]. split; [reflexivity|]. split; [|split].
    + intros from to Hf Ht. destruct (Hno from to Hf Ht).
    + intros _. repeat split.
    + discriminate.
Qed.

End Relocator.

(** Moving a file that is no longer in the watch directory gives
    [False], and the destination directory exists afterwards. *)
Lemma move_file_false_not_fault_witness :
  exists w',
    FilesManager.move_file "gone.csv" (VStr "in") (VStr "ok") demo_world
    = (Ret false, w') /\
    os_path_exists "ok" (w_fs demo_world) = false /\
    os_path_exists "ok" (w_fs w') = true /\
    w_log w' = w_log demo_world.
Proof.
  destruct (move_file_false_not_fault "gone.csv" (VStr "in") (VStr "ok")
              demo_world) as (b & w' & Hrun & _ & _ & Hcases & _).
  destruct (Hcases "in" "ok" eq_refl eq_refl) as (_ & Hmade).
  destruct (Hmade (demo_fs ++ [("ok", SimpleFS.Dir)]) eq_refl)
    as (Hmissing & _).
  destruct (Hmissing eq_refl) as (Hb & Hfs & Hlog).
  exists w'. rewrite Hrun, Hb, Hfs. repeat split. exact Hlog.
Defined.

(** ** The calls of one invocation *)

Arguments datetime_now : simpl never.
Arguments log_info : simpl never.
Arguments unexpected_err : simpl never.
Arguments alloc : simpl never.
Arguments set_task_id : simpl never.
Arguments error_flag : simpl never.
Arguments move_site_name : simpl never.
Arguments create_process_doc : simpl never.
Arguments json_dumps : simpl never.
Arguments set_status : simpl never.
Arguments attach_summary : simpl never.
Arguments move_out : simpl never.
Arguments path_of : simpl never.

Section Calls.
Context {os : OS}.
Variable sg : singletons.

Lemma process_selected_calls (files_path : dict) (file : pending_file)
    (fr fr' : frame) (r : outcome (option result)) :
  process_selected sg files_path file fr = (r, fr') ->
  file_to_proc fr' = file_to_proc fr /\
  local_err fr' = local_err fr /\
  exists cs to_path job_id,
    calls fr' = calls fr ++ cs /\
    prefix_of cs (selected_calls (file_name file)
                    (path_of files_path "repo_path") to_path job_id) /\
    forall v, r = Ret v ->
      cs = selected_calls (file_name file)
             (path_of files_path "repo_path") to_path job_id /\
      v = Some (mkResult (file_name file) (process_results_doc fr')).
Proof.
  destruct fr as [w cs0 le ftp prd].
  unfold process_selected, open_job_and_transform, route_and_record. cbn.
  repeat (match goal with
          | |- context [?m ?x] =>
              is_var x;
              match type of x with
              | world => destruct (m x) as [[?a|?e] ?w] eqn:?E; cbn
              end
          end).
  all: intros [= <- <-]; cbn; split; [reflexivity|split; [reflexivity|]].
  all: eexists _, _, _; split;
    [try (rewrite <- !app_assoc; cbn [app]);
     first [reflexivity | symmetry; apply app_nil_r]|].
  all: split; [eexists; cbn; reflexivity | try discriminate].
  intros v [= <-]. split; reflexivity.
  Unshelve. all: first [exact VNone | exact EmptyString].
Qed.

(** An invocation in which a file is selected, in terms of the body of
    the inner [try] and of the cleanup step. *)
Lemma run_selected (files_path : dict) (reverse : bool) (w w1 : world)
    (file : pending_file) :
  get_first_available_file (files_mgr sg) files_path reverse w
    = (Ret (Some file), w1) ->
  exists r fr1,
    process_selected sg files_path file (selected_frame w1 file) = (r, fr1) /\
    let err := caught r in
    let cs := calls fr1 ++ [CallCleanup (file_name file) err] in
    run sg files_path reverse w =
    match clean_file_process_q (files_mgr sg) (file_name file) err
            (after_except r (fr_world fr1)) with
    | (Ret _, w3) =>
        (Ret (Some (mkResult (file_name file) (process_results_doc fr1))),
         with_log (w_log w3
                   ++ [LogInfo "Pending Files Q - FINAL update :  SUCCESSFUL"])
           w3,
         cs)
    | (Raise e, w3) =>
        (Raise e, with_log (w_log w3 ++ [LogError e]) w3, cs)
    end.
Proof.
  intros Hsel.
  destruct (process_selected sg files_path file (selected_frame w1 file))
    as [r fr1] eqn:Hbody.
  exists r, fr1. split; [reflexivity|].
  destruct (process_selected_calls _ _ _ _ _ Hbody) as (Hf & He & Hcs).
  destruct Hcs as (cs & to_path & job_id & _ & _ & Hret).
  unfold run, process_next_file, try_body, finally_block, after_try,
    except_block, unexpected_err, log_info.
  cbn. rewrite Hsel. cbn. fold (selected_frame w1 file). rewrite Hbody.
  destruct fr1 as [w2 cs1 le1 ftp1 prd1]. cbn in Hf, He. subst le1 ftp1.
  destruct r as [v|e]; cbn.
  - destruct (Hret v eq_refl) as (_ & ->). cbn.
    destruct (clean_file_process_q (files_mgr sg) (file_name file) None w2)
      as [[[]|e] w3]; reflexivity.
  - destruct (clean_file_process_q (files_mgr sg) (file_name file) (Some e) _)
      as [[[]|e'] w3]; reflexivity.
Qed.

(** An invocation in which the selector raises or finds nothing. *)
Lemma run_not_selected (files_path : dict) (reverse : bool) (w w1 : world)
    (r : outcome (option pending_file)) :
  get_first_available_file (files_mgr sg) files_path reverse w = (r, w1) ->
  (forall file, r <> Ret (Some file)) ->
  run sg files_path reverse w = (Ret None, after_except r w1, [CallSelect]).
Proof.
  intros Hsel Hnone.
  unfold run, process_next_file, try_body, finally_block, after_try,
    except_block, unexpected_err.
  cbn. rewrite Hsel. destruct r as [[file|]|e]; cbn.
  - destruct (Hnone file eq_refl).
  - reflexivity.
  - reflexivity.
Qed.

End Calls.

(** ** What the selector returns *)

Section SelectorOutcomes.
Context {os : OS}.

(** C8, amended: the selector returns nothing when the watch directory
    is not set or does not exist, or holds no regular file; when the
    path exists but [os.listdir] raises on it, the selector raises that
    fault, which the orchestrator logs before it returns [None];
    otherwise the selector returns the first name in lexicographic order
    (the last one when the order is reversed) with the path joined to
    the directory.  When it returns nothing, the orchestrator returns
    [None], calls no other collaborator and leaves the world, so the job
    store, as it was. *)
Theorem select_one_first_or_none (files_path : dict) (reverse : bool)
    (w : world) :
  let select := FilesManager.get_first_available_file files_path reverse w in
  (truthy (w_heap w) (path_of files_path "repo_path") = false ->
   select = (Ret None, w)) /\
  (forall dir,
     path_of files_path "repo_path" = VStr dir ->
     os_path_exists dir (w_fs w) = false ->
     select = (Ret None, w)) /\
  (forall dir e,
     path_of files_path "repo_path" = VStr dir ->
     dir <> "" ->
     os_path_exists dir (w_fs w) = true ->
     os_listdir dir (w_fs w) = inl e ->
     select = (Raise e, w) /\
     run source_singletons files_path reverse w
     = (Ret None, with_log (w_log w ++ [LogError e]) w, [CallSelect])) /\
  (forall dir names,
     path_of files_path "repo_path" = VStr dir ->
     dir <> "" ->
     os_path_exists dir (w_fs w) = true ->
     os_listdir dir (w_fs w) = inr names ->
     let files :=
       filter (fun f => os_path_isfile (os_path_join dir f) (w_fs w)) names in
     (files = [] -> select = (Ret None, w)) /\
     (files <> [] ->
      exists first,
        select = (Ret (Some (mkPending first (os_path_join dir first))), w) /\
        In first files /\
        forall f, In f files ->
          if reverse then String.leb f first = true
          else String.leb first f = true)) /\
  (forall w',
     select = (Ret None, w') ->
     run source_singletons files_path reverse w
       = (Ret None, w, [CallSelect])).
Proof.
  cbv zeta. repeat split.
  - intros Ht.
    unfold FilesManager.get_first_available_file, py_truthy, get_heap. cbn.
    rewrite Ht. reflexivity.
  - intros dir Hp He.
    unfold FilesManager.get_first_available_file, py_truthy, get_heap.
    rewrite Hp. cbn. destruct (String.eqb dir ""); cbn; [reflexivity|].
    unfold path_exists. rewrite He. reflexivity.
  - unfold FilesManager.get_first_available_file, py_truthy, get_heap.
    rewrite H. cbn. apply String.eqb_neq in H0. rewrite H0. cbn.
    unfold path_exists. rewrite H1. cbn. unfold listdir. rewrite H2.
    reflexivity.
  - assert (FilesManager.get_first_available_file files_path reverse w
            = (Raise e, w)) as Hsel.
    { unfold FilesManager.get_first_available_file, py_truthy, get_heap.
      rewrite H. cbn. apply String.eqb_neq in H0. rewrite H0. cbn.
      unfold path_exists. rewrite H1. cbn. unfold listdir. rewrite H2.
      reflexivity. }
    rewrite (run_not_selected source_singletons _ _ _ _ _ Hsel);
      [reflexivity|discriminate].
  - intros Hf.
    unfold FilesManager.get_first_available_file, py_truthy, get_heap.
    rewrite H. cbn. apply String.eqb_neq in H0. rewrite H0. cbn.
    unfold path_exists. rewrite H1. cbn. unfold listdir. rewrite H2, Hf.
    reflexivity.
  - intros Hf.
    destruct (py_sort_first reverse _ Hf) as (first & rest & Hs & Hin & Hb).
    exists first. split; [|split; [exact Hin|]].
    + unfold FilesManager.get_first_available_file, py_truthy, get_heap.
      rewrite H. cbn. apply String.eqb_neq in H0. rewrite H0. cbn.
      unfold path_exists. rewrite H1. cbn. unfold listdir. rewrite H2.
      destruct (filter _ names) as [|f0 fs] eqn:Ef; [congruence|].
      rewrite Hs. reflexivity.
    + intros f Hfin. specialize (Hb f Hfin). unfold name_le in Hb.
      destruct reverse; exact Hb.
  - intros w'. apply run_nothing_selected.
Qed.

End SelectorOutcomes.

(** On the directory above, in the usual order, the selector returns the
    first of the two regular files. *)
Lemma select_one_first_or_none_witness :
  exists first,
    FilesManager.get_first_available_file demo_paths false demo_world
    = (Ret (Some (mkPending first (os_path_join "in" first))), demo_world) /\
    In first ["b.csv"; "a.csv"] /\
    forall f, In f ["b.csv"; "a.csv"] -> String.leb first f = true.
Proof.
  destruct (select_one_first_or_none demo_paths false demo_world)
    as (_ & _ & _ & H & _).
  destruct (H "in" ["b.csv"; "a.csv"; "sub"]) as (_ & H');
    [reflexivity | discriminate | reflexivity | reflexivity |].
  apply H'. discriminate.
Defined.

(** C8 as stated fails: the watch path exists but cannot be listed, and
    the selector neither returns none nor a file: it raises. *)
Lemma select_raises_on_unlistable_path :
  path_of file_as_watch_dir "repo_path" = VStr "in/a.csv" /\
  os_path_exists "in/a.csv" (w_fs demo_world) = true /\
  FilesManager.get_first_available_file file_as_watch_dir false demo_world
  = (Raise (OSError "NotADirectoryError"), demo_world) /\
  fst (FilesManager.get_first_available_file file_as_watch_dir false
         demo_world) <> Ret None /\
  forall file,
    fst (FilesManager.get_first_available_file file_as_watch_dir false
           demo_world) <> Ret (Some file).
Proof. repeat split; discriminate. Qed.

(** ** Faults and the calls of an invocation *)

Section Faults.
Context {os : OS}.
Variable sg : singletons.

(** C1, amended: whatever the singletons do, a fault of the selector is
    caught and the invocation returns [None]; once a file is selected
    and the cleanup step returns, the invocation returns the file name
    with the result document it has, whatever was raised in between; an
    invocation raises only when a file was selected and the cleanup step
    raised, and a fault of the cleanup step is raised to the caller. *)
Theorem faults_propagate_only_from_cleanup (files_path : dict)
    (reverse : bool) (w : world) :
  let select := get_first_available_file (files_mgr sg) files_path reverse w in
  let invocation := run sg files_path reverse w in
  (forall e w1,
     select = (Raise e, w1) ->
     exists w', invocation = (Ret None, w', [CallSelect])) /\
  (forall file w1,
     select = (Ret (Some file), w1) ->
     cleanup_returns sg ->
     exists doc w' cs,
       invocation = (Ret (Some (mkResult (file_name file) doc)), w', cs)) /\
  (forall e w' cs,
     invocation = (Raise e, w', cs) ->
     exists file w1 err w2 w3,
       select = (Ret (Some file), w1) /\
       In (CallCleanup (file_name file) err) cs /\
       clean_file_process_q (files_mgr sg) (file_name file) err w2
         = (Raise e, w3)) /\
  (forall file w1 e,
     select = (Ret (Some file), w1) ->
     cleanup_raises sg e ->
     exists w' cs, invocation = (Raise e, w', cs)).
Proof.
  cbv zeta. repeat split.
  - intros e w1 Hsel. eexists.
    rewrite (run_not_selected sg _ _ _ _ _ Hsel); [reflexivity|].
    discriminate.
  - intros file w1 Hsel Hclean.
    destruct (run_selected sg _ _ _ _ _ Hsel) as (r & fr1 & _ & Hrun).
    cbv zeta in Hrun. rewrite Hrun.
    destruct (Hclean (file_name file) (caught r)
                (after_except r (fr_world fr1))) as [w3 ->].
    eexists _, _, _. reflexivity.
  - intros e w' cs Hrun.
    destruct (get_first_available_file (files_mgr sg) files_path reverse w)
      as [rs w1] eqn:Hsel.
    destruct rs as [[file|]|es].
    + destruct (run_selected sg _ _ _ _ _ Hsel) as (r & fr1 & _ & Hrun').
      cbv zeta in Hrun'. rewrite Hrun' in Hrun.
      destruct (clean_file_process_q _ _ _ _) as [[[]|e'] w3] eqn:Hc;
        [discriminate|].
      injection Hrun as <- <- <-.
      exists file, w1, (caught r), (after_except r (fr_world fr1)), w3.
      repeat split; [|exact Hc].
      apply in_or_app. right. left. reflexivity.
    + rewrite (run_not_selected sg _ _ _ _ _ Hsel) in Hrun;
        [discriminate|discriminate].
    + rewrite (run_not_selected sg _ _ _ _ _ Hsel) in Hrun;
        [discriminate|discriminate].
  - intros file w1 e Hsel Hclean.
    destruct (run_selected sg _ _ _ _ _ Hsel) as (r & fr1 & _ & Hrun).
    cbv zeta in Hrun. rewrite Hrun.
    destruct (Hclean (file_name file) (caught r)
                (after_except r (fr_world fr1))) as [w3 ->].
    eexists _, _. reflexivity.
Qed.

End Faults.

(** With a watch directory that cannot be listed, the fault of the
    selector is caught and the invocation returns [None]. *)
Lemma faults_propagate_only_from_cleanup_witness :
  exists w',
    run source_singletons file_as_watch_dir false demo_world
    = (Ret None, w', [CallSelect]).
Proof.
  apply (proj1 (faults_propagate_only_from_cleanup source_singletons
                  file_as_watch_dir false demo_world)
           (OSError "NotADirectoryError") demo_world).
  reflexivity.
Defined.

(** C1 as stated fails: [os.listdir] raises before any file is selected,
    and the invocation returns [None] instead of raising. *)
Lemma selector_fault_not_propagated :
  FilesManager.get_first_available_file file_as_watch_dir false demo_world
  = (Raise (OSError "NotADirectoryError"), demo_world) /\
  fst (fst (run source_singletons file_as_watch_dir false demo_world))
  = Ret None.
Proof. split; reflexivity. Qed.

(** ** The metrics *)

Arguments Qred : simpl never.
Arguments Qdiv : simpl never.
Arguments Qmult : simpl never.
Arguments inject_Z : simpl never.
Arguments Qeq_bool : simpl never.
Arguments py_or : simpl never.
Arguments elapsed_millis : simpl never.

Lemma Qeq_bool_inject_Z (z : Z) : Qeq_bool (inject_Z z) 0 = Z.eqb z 0.
Proof.
  unfold Qeq_bool, inject_Z. simpl. rewrite Z.mul_1_r.
  destruct z; reflexivity.
Qed.

Lemma Qeq_bool_seconds (ms : Z) :
  Qeq_bool (Qred (inject_Z ms / inject_Z 1000)) 0 = Z.eqb ms 0.
Proof.
  destruct (Z.eqb ms 0) eqn:E.
  - apply Z.eqb_eq in E. subst ms. reflexivity.
  - apply Z.eqb_neq in E.
    destruct (Qeq_bool (Qred (inject_Z ms / inject_Z 1000)) 0) eqn:Eq;
      [|reflexivity].
    apply Qeq_bool_eq in Eq. rewrite Qred_correct in Eq.
    exfalso. apply E.
    unfold Qeq, Qdiv, Qmult, Qinv, inject_Z in Eq. simpl in Eq. lia.
Qed.

Lemma py_or_count (h : heap) (fallback : Z) (o : option value) :
  is_count o = true ->
  py_or h (or_none o) (VInt fallback) = VInt (count_or fallback o).
Proof.
  unfold py_or, count_or.
  destruct o as [[]|]; simpl; try discriminate; try reflexivity.
  intros _. destruct (Z.eqb z 0); reflexivity.
Qed.

Lemma py_or_seconds (h : heap) (ms : Z) :
  py_or h (VFloat (Qred (inject_Z ms / inject_Z 1000))) (VInt 1)
  = if Z.eqb ms 0 then VInt 1
    else VFloat (Qred (inject_Z ms / inject_Z 1000)).
Proof.
  unfold py_or, truthy. rewrite Qeq_bool_seconds.
  destruct (Z.eqb ms 0); reflexivity.
Qed.

Lemma count_or_nonzero (o : option value) : Z.eqb (count_or 1 o) 0 = false.
Proof.
  unfold count_or. destruct o as [[]|]; try reflexivity.
  destruct (Z.eqb z 0) eqn:E; [reflexivity|exact E].
Qed.

(** Magnitudes of the metrics. *)

Lemma Qabs_ratio_bound (a r c bound : Z) :
  r <> 0%Z -> (Z.abs a <= bound)%Z ->
  (Qabs (inject_Z a / inject_Z r * inject_Z c)
   <= inject_Z (Z.abs c * bound))%Q.
Proof.
  intros Hr Ha.
  unfold Qle, Qabs, Qdiv, Qmult, Qinv, inject_Z.
  destruct r as [|q|q]; [congruence| |]; cbn -[Z.mul Z.abs Pos.mul];
    rewrite ?Pos.mul_1_l, ?Pos.mul_1_r, ?Z.mul_1_r, !Z.abs_mul;
    cbn [Z.abs]; rewrite ?Z.mul_1_r;
    pose proof (Z.abs_nonneg a); pose proof (Z.abs_nonneg c);
    pose proof (Pos2Z.is_pos q);
    (apply Z.le_trans with (Z.abs c * bound)%Z; [nia|]);
    rewrite <- (Z.mul_1_r (Z.abs c * bound)) at 1;
    apply Z.mul_le_mono_nonneg_l; nia.
Qed.

Lemma finite_of_bound (q : Q) (k : Z) :
  (Qabs q <= inject_Z k)%Q -> (k <= float_max)%Z -> finite q.
Proof.
  intros Hq Hk. unfold finite. eapply Qle_trans; [exact Hq|].
  unfold Qle, inject_Z. cbn [Qnum Qden]. lia.
Qed.

Lemma count_or_within (bound fallback : Z) (o : option value) :
  count_within bound o -> (Z.abs fallback <= bound)%Z ->
  (Z.abs (count_or fallback o) <= bound)%Z.
Proof.
  intros Ho Hf. unfold count_or. destruct o as [[| |n| | | |]|]; try exact Hf.
  destruct (Z.eqb n 0); [exact Hf|]. apply Ho. reflexivity.
Qed.

Lemma count_or_one_nonzero (o : option value) : count_or 1 o <> 0%Z.
Proof.
  pose proof (count_or_nonzero o) as H. apply Z.eqb_neq. exact H.
Qed.

Lemma tps_finite (num ms : Z) :
  (Z.abs num <= exact_float_bound)%Z ->
  finite (Qred (inject_Z num
                / (if Z.eqb ms 0 then inject_Z 1
                   else Qred (inject_Z ms / inject_Z 1000)))).
Proof.
  intros Hnum. destruct (Z.eqb ms 0) eqn:Ems.
  - apply finite_of_bound with (Z.abs 1 * exact_float_bound)%Z.
    + rewrite Qred_correct.
      assert (inject_Z num / inject_Z 1
              == inject_Z num / inject_Z 1 * inject_Z 1)%Q as ->
        by (unfold Qeq, Qdiv, Qmult, Qinv, inject_Z; cbn -[Z.mul]; lia).
      apply Qabs_ratio_bound; [discriminate|exact Hnum].
    + vm_compute. discriminate.
  - apply Z.eqb_neq in Ems.
    apply finite_of_bound with (Z.abs 1000 * exact_float_bound)%Z.
    + rewrite !Qred_correct.
      assert (inject_Z num / (inject_Z ms / inject_Z 1000)
              == inject_Z num / inject_Z ms * inject_Z 1000)%Q as ->.
      { field. unfold Qeq, inject_Z. cbn. lia. }
      apply Qabs_ratio_bound; assumption.
    + vm_compute. discriminate.
Qed.

(** Steps of a run on a heap given by its lookups: tests between two
    locations are decided, and known lookups are replaced. *)
Ltac decide_eqb :=
  match goal with
  | |- context [Nat.eqb ?a ?b] =>
      first
        [ replace (Nat.eqb a b) with true
            by (symmetry; apply Nat.eqb_eq; cbn [length]; lia)
        | replace (Nat.eqb a b) with false
            by (symmetry; apply Nat.eqb_neq; cbn [length]; lia) ]
  end.

Ltac use_lookup :=
  match goal with
  | H : heap_get ?l ?h = Some _ |- context [heap_get ?l ?h] => rewrite H
  | H : dict_get ?k ?d = _ |- context [dict_get ?k ?d] => rewrite H
  end.

Ltac run_steps := repeat first [progress cbn | decide_eqb | use_lookup].

Ltac metric_steps :=
  repeat first
    [ progress cbn | decide_eqb | use_lookup
    | rewrite Qeq_bool_inject_Z
    | rewrite count_or_nonzero
    | rewrite py_or_seconds
    | match goal with
      | H : is_count ?o = true
        |- context [py_or ?h (or_none ?o) (VInt ?f)] =>
          rewrite (py_or_count h f o H)
      end ].

Section MetricsFacts.
Context {os : OS}.

Lemma create_process_doc_run (start : Z) (s t : loc) (td : dict)
    (ev : value) (ok : Z) (w : world) :
  heap_get s (w_heap w) = Some [("totals", VRef t); ("error", ev)] ->
  heap_get t (w_heap w) = Some td ->
  dict_get "records_ok" td = Some (VInt ok) ->
  is_count (dict_get "raw_lines" td) = true ->
  is_count (dict_get "transactions" td) = true ->
  create_process_doc start (VRef s) w
  = (Ret (VRef (length (w_heap w))),
     with_heap
       (process_doc start (hd 0%Z (w_clock w)) ok
          (count_or 1 (dict_get "raw_lines" td))
          (count_or (-1) (dict_get "transactions" td)) (VRef t) ev
        :: w_heap w)
       (with_clock (tl (w_clock w)) w)).
Proof.
  destruct w as [fs h jobs n tid clk slp lg]. cbn [w_heap w_clock].
  intros Hs Ht Hok Hraw Htr.
  pose proof (heap_get_lt _ _ _ Hs) as Hsl.
  pose proof (heap_get_lt _ _ _ Ht) as Htl.
  unfold create_process_doc, py_getitem, py_setitem, py_get, py_or_m,
    deref, store, alloc, datetime_now, get_heap, heap_alloc, py_truediv,
    py_mul, process_doc.
  metric_steps.
  destruct (Z.eqb (elapsed_millis start (hd 0%Z clk)) 0) eqn:Ems;
    metric_steps.
  - destruct (is_dict ev); metric_steps; reflexivity.
  - rewrite Qeq_bool_seconds, Ems. metric_steps.
    destruct (is_dict ev); metric_steps; reflexivity.
Qed.


(** C7, amended: under the same conditions the numerator of the
    throughput is [transactions] when it is an integer other than 0, and
    -1 when it is missing, [None] or 0; the divisor is the elapsed
    seconds, or 1 when no millisecond has elapsed.  So a count of 0, as
    a missing one, gives a negative throughput when the clock has not
    gone back. *)
Theorem tps_numerator_or_sentinel (start : Z) (s t : loc) (td : dict)
    (ev : value) (ok : Z) (w : world) :
  heap_get s (w_heap w) = Some [("totals", VRef t); ("error", ev)] ->
  heap_get t (w_heap w) = Some td ->
  dict_get "records_ok" td = Some (VInt ok) ->
  is_count (dict_get "raw_lines" td) = true ->
  is_count (dict_get "transactions" td) = true ->
  exists doc d w',
    create_process_doc start (VRef s) w = (Ret (VRef doc), w') /\
    heap_get doc (w_heap w') = Some d /\
    let ms := elapsed_millis start (hd 0%Z (w_clock w)) in
    let seconds :=
      if Z.eqb ms 0 then 1%Q else Qred (inject_Z ms / 1000) in
    (forall n,
       dict_get "transactions" td = Some (VInt n) -> n <> 0%Z ->
       dict_get "tps" d = Some (VFloat (Qred (inject_Z n / seconds)))) /\
    (dict_get "transactions" td = Some (VInt 0) \/
     dict_get "transactions" td = Some VNone \/
     dict_get "transactions" td = None ->
     dict_get "tps" d = Some (VFloat (Qred (inject_Z (-1) / seconds))) /\
     ((0 <= ms)%Z -> (Qred (inject_Z (-1) / seconds) < 0)%Q)).
Proof.
  intros Hs Ht Hok Hraw Htr.
  rewrite (create_process_doc_run start s t td ev ok w Hs Ht Hok Hraw Htr).
  destruct w as [fs h jobs c tid clk slp lg]. cbn [w_heap w_clock with_heap].
  eexists _, _, _. split; [reflexivity|split].
  - cbn. rewrite Nat.eqb_refl. reflexivity.
  - unfold process_doc. cbn [app dict_get String.eqb Ascii.eqb Bool.eqb].
    cbv zeta. split.
    + intros n Hn Hne. rewrite Hn. unfold count_or.
      apply Z.eqb_neq in Hne. rewrite Hne. reflexivity.
    + intros Hz.
      assert (count_or (-1) (dict_get "transactions" td) = (-1)%Z) as ->
        by (destruct Hz as [-> | [-> | ->]]; reflexivity).
      split; [reflexivity|]. intros Hms.
      rewrite Qred_correct.
      set (ms := elapsed_millis start (hd 0%Z clk)) in *.
      destruct (Z.eqb ms 0) eqn:E.
      * reflexivity.
      * apply Z.eqb_neq in E.
        assert (0 < Qred (inject_Z ms / 1000))%Q as Hpos.
        { rewrite Qred_correct. unfold Qlt, Qdiv, Qmult, Qinv, inject_Z.
          simpl. lia. }
        revert Hpos. generalize (Qred (inject_Z ms / 1000)).
        intros [a b]. unfold Qlt, Qdiv, Qmult, Qinv, inject_Z. simpl.
        destruct a; simpl; lia.
Qed.

End MetricsFacts.


(** With a count of 0 after two seconds the throughput is -1/2. *)
Lemma tps_numerator_or_sentinel_witness :
  exists doc d w',
    create_process_doc 0 (VRef 1) zero_totals_world = (Ret (VRef doc), w') /\
    heap_get doc (w_heap w') = Some d /\
    dict_get "tps" d
    = Some (VFloat (Qred (inject_Z (-1) / Qred (2000 / 1000)))).
Proof.
  destruct (tps_numerator_or_sentinel 0 1 0
              [("raw_lines", VInt 0); ("records_ok", VInt 0);
               ("transactions", VInt 0)] VNone 0 zero_totals_world
              eq_refl eq_refl eq_refl eq_refl eq_refl)
    as (doc & d & w' & Hrun & Hdoc & _ & Hzero).
  exists doc, d, w'. split; [exact Hrun|]. split; [exact Hdoc|].
  apply Hzero. left. reflexivity.
Defined.

(** C7 as stated fails: a transactions count that is present and is 0
    gives the throughput -1/2 after two seconds, not 0. *)
Lemma zero_transactions_negative_tps :
  let w' := snd (create_process_doc 0 (VRef 1) zero_totals_world) in
  option_map (dict_get "transactions") (heap_get 0 (w_heap zero_totals_world))
  = Some (Some (VInt 0)) /\
  fst (create_process_doc 0 (VRef 1) zero_totals_world) = Ret (VRef 2) /\
  option_map (dict_get "tps") (heap_get 2 (w_heap w'))
  = Some (Some (VFloat (-1 # 2))).
Proof. repeat split. Qed.

(** ** Routing and recording *)

Lemma heap_get_valid (l : loc) (h : heap) :
  l < length h -> exists d, heap_get l h = Some d.
Proof.
  induction h as [|d h IH]; simpl; [lia|].
  intros Hl. destruct (Nat.eqb l (length h)) eqn:E; [eauto|].
  apply Nat.eqb_neq in E. apply IH. lia.
Qed.

Lemma heap_get_set_valid (l l' : loc) (d : dict) (h : heap) :
  l' < length h ->
  heap_get l (heap_set l' d h)
  = if Nat.eqb l l' then Some d else heap_get l h.
Proof.
  intros Hl. destruct (heap_get_valid _ _ Hl) as [d0 H0].
  apply (heap_get_set _ _ _ _ _ H0).
Qed.

Lemma heap_set_set (l : loc) (d d' : dict) (h : heap) :
  heap_set l d (heap_set l d' h) = heap_set l d h.
Proof.
  induction h as [|d0 h IH]; simpl; [reflexivity|].
  destruct (Nat.eqb l (length h)) eqn:E; simpl.
  - rewrite E. reflexivity.
  - rewrite length_heap_set, E, IH. reflexivity.
Qed.

Lemma heap_set_same (l : loc) (d : dict) (h : heap) :
  heap_get l h = Some d -> heap_set l d h = h.
Proof.
  induction h as [|d0 h IH]; simpl; [reflexivity|].
  destruct (Nat.eqb l (length h)); [congruence|].
  intros H. rewrite (IH H). reflexivity.
Qed.

Lemma heap_set_comm (l l' : loc) (d d' : dict) (h : heap) :
  l <> l' ->
  heap_set l d (heap_set l' d' h) = heap_set l' d' (heap_set l d h).
Proof.
  intros Hne. induction h as [|d0 h IH]; simpl; [reflexivity|].
  destruct (Nat.eqb l' (length h)) eqn:E';
    destruct (Nat.eqb l (length h)) eqn:E;
    simpl; rewrite ?length_heap_set, ?E, ?E'; try reflexivity.
  - apply Nat.eqb_eq in E, E'. congruence.
  - rewrite IH. reflexivity.
Qed.

Lemma plain_get (d : dict) (k : string) (l : loc) :
  plain d = true -> dict_get k d <> Some (VRef l).
Proof.
  unfold plain. induction d as [|[k0 v0] d IH]; simpl; [discriminate|].
  intros H. apply andb_prop in H. destruct H as [Hv Hd].
  destruct (String.eqb k k0); [|apply IH, Hd].
  intros [= ->]. discriminate.
Qed.

Lemma plain_del (d : dict) (k : string) :
  plain d = true -> plain (dict_del k d) = true.
Proof.
  unfold plain. induction d as [|[k0 v0] d IH]; simpl; [reflexivity|].
  intros H. apply andb_prop in H. destruct H as [Hv Hd].
  destruct (String.eqb k k0); simpl; [apply IH, Hd|].
  rewrite Hv. apply IH, Hd.
Qed.

Lemma plain_json (n : nat) (h : heap) (d : dict) :
  plain d = true -> forallb (fun kv => json_ok n h (snd kv)) d = true.
Proof.
  unfold plain. induction d as [|[k0 v0] d IH]; simpl; [reflexivity|].
  intros H. apply andb_prop in H. destruct H as [Hv Hd].
  rewrite (IH Hd), andb_true_r.
  destruct v0; try discriminate; destruct n; reflexivity.
Qed.

Ltac decide_loc :=
  match goal with
  | |- context [Nat.eqb ?a ?b] =>
      first
        [ replace (Nat.eqb a b) with true
            by (symmetry; apply Nat.eqb_eq;
                rewrite ?length_heap_set; cbn [length]; lia)
        | replace (Nat.eqb a b) with false
            by (symmetry; apply Nat.eqb_neq;
                rewrite ?length_heap_set; cbn [length]; lia) ]
  end.

Ltac heap_steps :=
  repeat first
    [ progress cbn
    | rewrite heap_set_set
    | rewrite length_heap_set
    | rewrite heap_get_set_valid by (rewrite ?length_heap_set; lia)
    | decide_loc
    | use_lookup ].

Section RouteFacts.
Context {os : OS}.

Lemma error_flag_run (s t st : loc) (ev : value) (w : world) :
  heap_get s (w_heap w) = Some [("totals", VRef t); ("error", ev)] ->
  error_ok (w_heap w) t st ev ->
  error_flag (VRef s) w = (Ret (flag_of (w_heap w) ev), w).
Proof.
  destruct w as [fs h jobs c tid clk slp lg]. cbn [w_heap].
  intros Hs Hev.
  unfold error_flag, py_get, py_truthy, get_heap, deref, flag_of.
  destruct ev; try (destruct Hev; fail); heap_steps; [reflexivity|].
  destruct Hev as (_ & _ & ed & He & _).
  heap_steps. destruct ed as [|kv ed]; heap_steps; reflexivity.
Qed.

Lemma json_dumps_run (s t st : loc) (td : dict) (ev : value) (w : world) :
  heap_get s (w_heap w) = Some [("totals", VRef t); ("error", ev)] ->
  heap_get t (w_heap w) = Some td ->
  plain td = true ->
  error_ok (w_heap w) t st ev ->
  json_dumps (VRef s) w = (Ret tt, w).
Proof.
  destruct w as [fs h jobs c tid clk slp lg]. cbn [w_heap].
  intros Hs Ht Hplain Hev.
  unfold json_dumps, get_heap. cbn.
  assert (s <> t) as Hst.
  { intros ->. rewrite Hs in Ht. injection Ht as <-. discriminate. }
  pose proof (heap_get_lt _ _ _ Hs). pose proof (heap_get_lt _ _ _ Ht).
  destruct (length h) as [|[|n]] eqn:El; try lia.
  cbn. rewrite Hs. cbn. rewrite Ht, (plain_json _ _ _ Hplain). cbn.
  destruct ev; try (destruct Hev; fail); try reflexivity.
  destruct Hev as (_ & _ & ed & He & Hpe).
  rewrite He, (plain_json _ _ _ Hpe). reflexivity.
Qed.

Lemma totals_after_get (k : string) (td : dict) :
  String.eqb k "site_name" = false ->
  dict_get k (totals_after td) = dict_get k td.
Proof.
  intros Hk. unfold totals_after. destruct (tag_moves td); [|reflexivity].
  rewrite dict_get_del, Hk. reflexivity.
Qed.

Lemma totals_after_plain (td : dict) :
  plain td = true -> plain (totals_after td) = true.
Proof.
  intros H. unfold totals_after. destruct (tag_moves td); [|exact H].
  apply plain_del, H.
Qed.

Lemma move_site_name_run (p st s t : loc) (std td : dict)
    (x1 x2 x3 ev : value) (w : world) :
  heap_get p (w_heap w)
  = Some [("process_id", x1); ("file", x2); ("star_date", x3);
          (proc_name, VRef st)] ->
  heap_get st (w_heap w) = Some std ->
  heap_get s (w_heap w) = Some [("totals", VRef t); ("error", ev)] ->
  heap_get t (w_heap w) = Some td ->
  is_tag (dict_get "site_name" td) = true ->
  st <> s -> st <> t ->
  move_site_name (VRef p) (VRef s) w
  = (Ret tt,
     with_heap (heap_set st (stage_after std td)
                  (heap_set t (totals_after td) (w_heap w))) w).
Proof.
  destruct w as [fs h jobs c tid clk slp lg]. cbn [w_heap].
  intros Hp Hst Hs Ht Htag Hne1 Hne2.
  pose proof (heap_get_lt _ _ _ Hp). pose proof (heap_get_lt _ _ _ Hst).
  pose proof (heap_get_lt _ _ _ Hs). pose proof (heap_get_lt _ _ _ Ht).
  unfold move_site_name, py_getitem, py_get, py_truthy, py_setitem,
    py_delitem, get_heap, deref, store, stage_after, totals_after, tag_moves,
    dict_mem.
  destruct (dict_get "site_name" td) as [[| | | |name| |]|] eqn:Esite;
    try discriminate; heap_steps;
    try (rewrite (heap_set_same t td h Ht), (heap_set_same st std h Hst);
         reflexivity).
  destruct (String.eqb name ""); heap_steps.
  - rewrite (heap_set_same t td h Ht), (heap_set_same st std h Hst).
    reflexivity.
  - rewrite (heap_set_comm t st) by congruence. reflexivity.
Qed.

Arguments FilesManager.move_file : simpl never.

Lemma route_and_record_run (files_path : dict) (file : pending_file)
    (start : Z) (job_id : string) (p st s t : loc) (std td : dict)
    (ev : value) (ok : Z) (fr : frame) :
  consumable (fr_world fr) job_id p st s t std td ev ok ->
  let w := fr_world fr in
  let flag := flag_of (w_heap w) ev in
  let to_path :=
    if eq_str flag OnFileProcErr.FAIL then path_of files_path "err_path"
    else path_of files_path "ok_path" in
  let doc := length (w_heap w) in
  let doc_dict :=
    process_doc start (hd 0%Z (w_clock w)) ok
      (count_or 1 (dict_get "raw_lines" td))
      (count_or (-1) (dict_get "transactions" td)) (VRef t) ev in
  exists b fs lg h' lg' stage,
    FilesManager.move_file (file_name file) (path_of files_path "repo_path")
      to_path w
    = (Ret b, with_log lg (with_fs fs w)) /\
    route_and_record source_singletons files_path file start (VRef p) job_id
      (VRef s) fr
    = (Ret (Some (mkResult (file_name file) (VRef doc))),
       mkFrame
         (mkWorld fs h' (w_jobs w) (w_job_counter w) VNone (tl (w_clock w))
            (w_sleep w) lg')
         (calls fr
          ++ [CallMove (file_name file) (path_of files_path "repo_path")
                to_path;
              CallUpdateJob job_id])
         (local_err fr) (file_to_proc fr) (VRef doc)) /\
    heap_get doc h' = Some doc_dict /\
    heap_get st h' = Some stage /\
    dict_get "status" stage
    = Some (VStr (if eq_str flag OnFileProcErr.FAIL then "error"
                  else "finished")) /\
    dict_get "summary" stage = Some (VRef (S doc)) /\
    (forall k, In k mv_out_arr -> dict_get k stage = dict_get k doc_dict) /\
    heap_get (S doc) h'
    = Some (("totals", VRef t)
            :: (if is_dict ev then [("error", ev)] else [])) /\
    heap_get p h' = heap_get p (w_heap w) /\
    heap_get s h' = heap_get s (w_heap w) /\
    heap_get t h' = Some (totals_after td) /\
    (forall e, ev = VRef e -> heap_get e h' = heap_get e (w_heap w)).
Proof.
  destruct fr as [w cs0 le ftp prd].
  destruct w as [fs h jobs c tid clk slp lg].
  intros [(x1 & x2 & x3 & Hp) Hst Hjob Hs Ht Hplain Hok Hraw Htr Htag Hev
            (Hne1 & Hne2 & Hne3)].
  cbn [fr_world w_heap w_jobs w_clock w_job_counter w_sleep calls local_err
       file_to_proc] in *.
  cbv zeta.
  set (flag := flag_of h ev).
  set (to_path := if eq_str flag OnFileProcErr.FAIL
                  then path_of files_path "err_path"
                  else path_of files_path "ok_path").
  pose proof (heap_get_lt _ _ _ Hp). pose proof (heap_get_lt _ _ _ Hst).
  pose proof (heap_get_lt _ _ _ Hs). pose proof (heap_get_lt _ _ _ Ht).
  assert (s <> t) as Hne4.
  { intros ->. rewrite Hs in Ht. injection Ht as <-. discriminate. }
  assert (p <> s) as Hne5.
  { intros ->. rewrite Hs in Hp. discriminate. }
  assert (p <> t) as Hne6.
  { intros ->. rewrite Ht in Hp. injection Hp as ->. discriminate. }
  destruct (move_file_frame (file_name file) (path_of files_path "repo_path")
              to_path (mkWorld fs h jobs c tid clk slp lg))
    as (b & fs' & lg' & Hmv).
  cbn in Hmv.
  unfold route_and_record. cbn.
  match goal with
  | |- context [error_flag (VRef s) ?w] =>
      rewrite (error_flag_run s t st ev w Hs Hev)
  end.
  cbn. fold flag. fold to_path.
  rewrite Hmv. unfold log_info. cbn.
  match goal with
  | |- context [move_site_name (VRef p) (VRef s) ?w] =>
      rewrite (move_site_name_run p st s t std td x1 x2 x3 ev w
                 Hp Hst Hs Ht Htag Hne2 Hne3)
  end.
  cbn.
  match goal with
  | |- context [create_process_doc start (VRef s) ?w] =>
      rewrite (create_process_doc_run start s t (totals_after td) ev ok w);
        [| heap_steps; reflexivity | heap_steps; reflexivity
         | rewrite totals_after_get by reflexivity; exact Hok
         | rewrite totals_after_get by reflexivity; exact Hraw
         | rewrite totals_after_get by reflexivity; exact Htr ]
  end.
  cbn.
  assert (forall d,
            error_ok (d :: heap_set st (stage_after std td)
                             (heap_set t (totals_after td) h)) t st ev)
    as Hev'.
  { intros d. destruct ev; try exact Hev.
    destruct Hev as (He1 & He2 & ed & He & Hpe).
    pose proof (heap_get_lt _ _ _ He).
    split; [exact He1|split; [exact He2|]]. exists ed.
    split; [|exact Hpe]. heap_steps. reflexivity. }
  match goal with
  | |- context [json_dumps (VRef s) ?w] =>
      rewrite (json_dumps_run s t st (totals_after td) ev w);
        [| heap_steps; reflexivity | heap_steps; reflexivity
         | apply totals_after_plain, Hplain
         | apply Hev' ]
  end.
  cbn.
  unfold set_status, attach_summary, move_out, py_getitem, py_setitem,
    py_delitem, py_contains, py_dict, deref, store, alloc, heap_alloc,
    dict_mem, set_task_id, MongoCommonCollections.update_job, py_update,
    log_info.
  destruct ev as [| | | | | |e]; try (destruct Hev; fail).
  - heap_steps.
    rewrite <- !app_assoc, !totals_after_get by reflexivity. cbn [app].
    exists b, fs'. eexists _, _, _, _.
    split; [reflexivity|split; [reflexivity|]].
    unfold process_doc.
    repeat split; heap_steps; try reflexivity;
      try (rewrite !dict_get_set; reflexivity); try discriminate.
    intros k Hk. rewrite !dict_get_set.
    repeat (destruct Hk as [<-|Hk]; [reflexivity|]). destruct Hk.
  - destruct Hev as (He1 & He2 & ed & He & Hpe).
    pose proof (heap_get_lt _ _ _ He).
    assert (e <> p) as Hne7.
    { intros ->. rewrite Hp in He. injection He as <-.
      apply (plain_get _ proc_name st Hpe). reflexivity. }
    heap_steps.
    rewrite <- !app_assoc, !totals_after_get by reflexivity. cbn [app].
    exists b, fs'. eexists _, _, _, _.
    split; [reflexivity|split; [reflexivity|]].
    unfold process_doc.
    repeat split; heap_steps; try reflexivity;
      try (rewrite !dict_get_set; reflexivity); try discriminate.
    + intros k Hk. rewrite !dict_get_set.
      repeat (destruct Hk as [<-|Hk]; [reflexivity|]). destruct Hk.
    + intros e0 [= <-]. heap_steps. reflexivity.
Qed.

(** C9, amended: from a state in which the job is opened and the summary
    is one the transformer built, lines 212 to 247 return; they call the
    relocation of the file once, to the error directory when the flag of
    the summary is FAIL and to the success directory otherwise, and drop
    its result.  The file is moved exactly when the directory can be
    ensured, the file is still there and [os.rename] succeeds: the file
    system is then the one [os.rename] left; in every other case no
    file is moved.  Whether it was moved or not, the job stored under
    the job id then has the status [error] in the first case and
    [finished] in the second. *)
Theorem file_routed_by_error_flag (files_path : dict)
    (file : pending_file) (start : Z) (job_id : string) (p st s t : loc)
    (std td : dict) (ev : value) (ok : Z) (fr : frame) :
  consumable (fr_world fr) job_id p st s t std td ev ok ->
  let w := fr_world fr in
  let fail := eq_str (flag_of (w_heap w) ev) OnFileProcErr.FAIL in
  let to_path :=
    if fail then path_of files_path "err_path"
    else path_of files_path "ok_path" in
  exists r fr' b w1 payload stage,
    route_and_record source_singletons files_path file start (VRef p) job_id
      (VRef s) fr = (Ret r, fr') /\
    calls fr'
    = calls fr
      ++ [CallMove (file_name file) (path_of files_path "repo_path") to_path;
          CallUpdateJob job_id] /\
    FilesManager.move_file (file_name file) (path_of files_path "repo_path")
      to_path w = (Ret b, w1) /\
    w_fs (fr_world fr') = w_fs w1 /\
    (forall from to,
       path_of files_path "repo_path" = VStr from -> to_path = VStr to ->
       let src := os_path_join from (file_name file) in
       let dst := os_path_join to (file_name file) in
       match os_makedirs to (w_fs w) with
       | inl _ => b = false /\ w_fs (fr_world fr') = w_fs w
       | inr fs1 =>
           if os_path_exists src fs1 then
             match os_rename src dst fs1 with
             | inl _ => b = false /\ w_fs (fr_world fr') = fs1
             | inr fs2 => b = true /\ w_fs (fr_world fr') = fs2
             end
           else b = false /\ w_fs (fr_world fr') = fs1
       end) /\
    dict_get job_id (w_jobs (fr_world fr')) = Some (VRef p) /\
    heap_get p (w_heap (fr_world fr')) = Some payload /\
    dict_get proc_name payload = Some (VRef st) /\
    heap_get st (w_heap (fr_world fr')) = Some stage /\
    dict_get "status" stage
    = Some (VStr (if fail then "error" else "finished")).
Proof.
  intros Hc.
  destruct (route_and_record_run files_path file start job_id p st s t std td
              ev ok fr Hc)
    as (b & fs & lg & h' & lg' & stage & Hmv & Hrun & _ & Hst & Hstatus & _
        & _ & _ & Hp & _).
  destruct Hc as [(x1 & x2 & x3 & Hp0) _ Hjob _ _ _ _ _ _ _ _ _].
  cbv zeta. eexists _, _, b, _, _, stage.
  split; [exact Hrun|]. cbn [calls fr_world w_fs w_jobs w_heap].
  split; [reflexivity|]. split; [exact Hmv|].
  split; [destruct (fr_world fr); reflexivity|].
  split.
  { intros from to Hfrom Hto. cbv zeta in Hmv. rewrite Hfrom, Hto in Hmv.
    rewrite move_file_run in Hmv.
    destruct (fr_world fr) as [fs0 h0 jobs0 c0 tid0 clk0 slp0 lg0].
    cbn [w_fs w_log with_log with_fs] in *.
    destruct (os_makedirs to fs0) as [e|fs1].
    - injection Hmv as <- <- _. split; reflexivity.
    - destruct (os_path_exists (os_path_join from (file_name file)) fs1).
      + destruct (os_rename _ _ fs1) as [e|fs2].
        * injection Hmv as <- <- _. split; reflexivity.
        * injection Hmv as <- <- _. split; reflexivity.
      + injection Hmv as <- <- _. split; reflexivity. }
  split; [exact Hjob|]. split; [rewrite Hp; exact Hp0|].
  split; [reflexivity|]. split; [exact Hst|exact Hstatus].
Qed.

(** C4, amended: from such a state lines 212 to 247 return the result
    document, which holds the six metric fields; the summary of the
    stage is another object, a copy of the result document from which
    the six fields are removed, so that it holds only references to
    nested dicts; and the stage of the job holds the six fields with the
    values the result document has. *)
Theorem metrics_moved_out_of_copy (files_path : dict) (file : pending_file)
    (start : Z) (job_id : string) (p st s t : loc) (std td : dict)
    (ev : value) (ok : Z) (fr : frame) :
  consumable (fr_world fr) job_id p st s t std td ev ok ->
  exists fr' doc copy doc_dict copy_dict stage,
    route_and_record source_singletons files_path file start (VRef p) job_id
      (VRef s) fr
    = (Ret (Some (mkResult (file_name file) (VRef doc))), fr') /\
    heap_get doc (w_heap (fr_world fr')) = Some doc_dict /\
    heap_get st (w_heap (fr_world fr')) = Some stage /\
    dict_get "summary" stage = Some (VRef copy) /\
    copy <> doc /\
    heap_get copy (w_heap (fr_world fr')) = Some copy_dict /\
    (forall k, In k mv_out_arr ->
       dict_mem k doc_dict = true /\
       dict_mem k copy_dict = false /\
       dict_get k stage = dict_get k doc_dict) /\
    (forall k v, dict_get k copy_dict = Some v -> is_dict v = true).
Proof.
  intros Hc.
  destruct (route_and_record_run files_path file start job_id p st s t std td
              ev ok fr Hc)
    as (b & fs & lg & h' & lg' & stage & _ & Hrun & Hdoc & Hst & _ & Hsum
        & Hmoved & Hcopy & _).
  eexists _, _, _, _, _, stage.
  split; [exact Hrun|]. cbn [fr_world w_heap].
  split; [exact Hdoc|]. split; [exact Hst|]. split; [exact Hsum|].
  split; [lia|]. split; [exact Hcopy|]. split.
  - intros k Hk. split; [|split; [|apply Hmoved, Hk]].
    + unfold process_doc, dict_mem. cbn [app].
      repeat (destruct Hk as [<-|Hk]; [reflexivity|]). destruct Hk.
    + unfold dict_mem.
      repeat (destruct Hk as [<-|Hk];
              [destruct (is_dict ev); reflexivity|]).
      destruct Hk.
  - intros k v. cbn [dict_get].
    destruct (String.eqb k "totals"); [intros [= <-]; reflexivity|].
    destruct (is_dict ev) eqn:Ed; cbn [dict_get]; [|discriminate].
    destruct (String.eqb k "error"); [intros [= <-]; exact Ed|discriminate].
Qed.

(** C5, amended: from such a state lines 212 to 247 leave the summary
    dict and its error as they were, and change the totals only by
    removing the site name when it is a string that is not empty; every
    other entry of the totals is as it was. *)
Theorem summary_changes_only_by_site_name (files_path : dict)
    (file : pending_file) (start : Z) (job_id : string) (p st s t : loc)
    (std td : dict) (ev : value) (ok : Z) (fr : frame) :
  consumable (fr_world fr) job_id p st s t std td ev ok ->
  exists r fr',
    route_and_record source_singletons files_path file start (VRef p) job_id
      (VRef s) fr = (r, fr') /\
    let h := w_heap (fr_world fr) in
    let h' := w_heap (fr_world fr') in
    heap_get s h' = heap_get s h /\
    (forall e, ev = VRef e -> heap_get e h' = heap_get e h) /\
    (tag_moves td = false -> heap_get t h' = heap_get t h) /\
    (tag_moves td = true ->
     heap_get t h' = Some (dict_del "site_name" td)) /\
    (forall k, k <> "site_name" ->
       option_map (dict_get k) (heap_get t h')
       = option_map (dict_get k) (heap_get t h)).
Proof.
  intros Hc.
  destruct (route_and_record_run files_path file start job_id p st s t std td
              ev ok fr Hc)
    as (b & fs & lg & h' & lg' & stage & _ & Hrun & _ & _ & _ & _ & _ & _
        & _ & Hs & Ht & He).
  destruct Hc as [_ _ _ _ Ht0 _ _ _ _ _ _ _].
  eexists _, _. split; [exact Hrun|]. cbn [fr_world w_heap].
  split; [exact Hs|]. split; [exact He|].
  rewrite Ht, Ht0. unfold totals_after. split; [|split].
  - intros ->. reflexivity.
  - intros ->. reflexivity.
  - intros k Hk. cbn [option_map]. f_equal.
    destruct (tag_moves td); [|reflexivity].
    rewrite dict_get_del. apply String.eqb_neq in Hk. rewrite Hk.
    reflexivity.
Qed.

End RouteFacts.

Arguments job_name : simpl never.

Section SourceRuns.
Context {os : OS}.

(** With the singletons of the source, lines 193 to 210 always return,
    and they leave the job opened and stored and a summary that the
    rest of the body can consume. *)
Lemma open_job_and_transform_consumable (file : pending_file) (fr : frame) :
  exists tr fr' p st s t std td ev ok,
    open_job_and_transform source_singletons file fr = (Ret tr, fr') /\
    tr_job_payload tr = VRef p /\
    tr_summary tr = VRef s /\
    consumable (fr_world fr') (tr_job_id tr) p st s t std td ev ok /\
    calls fr'
    = calls fr ++ [CallCreateJob; CallTransform (file_name file)] /\
    w_fs (fr_world fr') = w_fs (fr_world fr).
Proof.
  destruct fr as [w cs0 le ftp prd].
  destruct w as [fs h jobs c tid clk slp lg].
  unfold open_job_and_transform. cbn.
  unfold FileParser.import_feed_file, MongoCommonCollections.create_job,
    datetime_now, log_info, alloc, heap_alloc, set_task_id, asyncio_sleep.
  cbn. destruct slp as [e|]; cbn.
  - eexists _, _, (S (length h)), (length h), (6 + length h),
      (4 + length h), _, _, _, 0%Z.
    split; [reflexivity|].
    cbn [calls fr_world w_fs tr_job_payload tr_summary tr_job_id].
    split; [reflexivity|]. split; [reflexivity|].
    split; [|split; [rewrite <- app_assoc; reflexivity|reflexivity]].
    constructor; cbn; heap_steps; try reflexivity.
    + eexists _, _, _. reflexivity.
    + rewrite dict_get_set, String.eqb_refl. reflexivity.
    + split; [lia|]. split; [lia|]. eexists. heap_steps.
      split; reflexivity.
    + lia.
  - eexists _, _, (S (length h)), (length h), (S (S (S (length h)))),
      (S (S (length h))), _, _, _, 95%Z.
    split; [reflexivity|].
    cbn [calls fr_world w_fs tr_job_payload tr_summary tr_job_id].
    split; [reflexivity|]. split; [reflexivity|].
    split; [|split; [rewrite <- app_assoc; reflexivity|reflexivity]].
    constructor; cbn; heap_steps; try reflexivity.
    + eexists _, _, _. reflexivity.
    + rewrite dict_get_set, String.eqb_refl. reflexivity.
    + lia.
Qed.

End SourceRuns.

Lemma transformed_demo_consumable :
  consumable (fr_world transformed_demo) "JOB_1" 1 0 3 2
    [("start_time", VIso 1000000); ("status", VStr "processing")]
    [("raw_lines", VInt 100); ("records_ok", VInt 95);
     ("transactions", VInt 95); ("site_name", VStr "Site_A")]
    VNone 95.
Proof.
  constructor; try reflexivity; try exact I.
  - eexists _, _, _. reflexivity.
  - repeat split; discriminate.
Qed.

Lemma transformed_failing_consumable :
  consumable (fr_world transformed_failing) "JOB_1" 1 0 6 4
    [("start_time", VIso 1000000); ("status", VStr "processing")]
    [("raw_lines", VInt 0); ("records_ok", VInt 0); ("transactions", VInt 0)]
    (VRef 5) 0.
Proof.
  constructor; try reflexivity.
  - eexists _, _, _. reflexivity.
  - split; [discriminate|]. split; [discriminate|].
    eexists. split; reflexivity.
  - repeat split; discriminate.
Qed.

(** When the transformer reports FAIL, the file goes to the error
    directory, where it then is, and the status of the job is [error]. *)
Lemma file_routed_by_error_flag_witness :
  exists r fr' stage,
    route_and_record source_singletons demo_paths demo_file 1000000 (VRef 1)
      "JOB_1" (VRef 6) transformed_failing = (Ret r, fr') /\
    calls fr'
    = calls transformed_failing
      ++ [CallMove "a.csv" (VStr "in") (VStr "err"); CallUpdateJob "JOB_1"] /\
    os_path_isfile "err/a.csv" (w_fs (fr_world fr')) = true /\
    os_path_exists "in/a.csv" (w_fs (fr_world fr')) = false /\
    heap_get 0 (w_heap (fr_world fr')) = Some stage /\
    dict_get "status" stage = Some (VStr "error").
Proof.
  destruct (file_routed_by_error_flag demo_paths demo_file 1000000 "JOB_1"
              1 0 6 4 _ _ _ _ transformed_failing
              transformed_failing_consumable)
    as (r & fr' & b & w1 & payload & stage & Hrun & Hcalls & _ & _ & Hmoved
        & _ & _ & _ & Hstage & Hstatus).
  specialize (Hmoved "in" "err" eq_refl eq_refl).
  cbn in Hmoved. destruct Hmoved as (_ & Hfs).
  exists r, fr', stage.
  split; [exact Hrun|]. split; [exact Hcalls|].
  rewrite Hfs. split; [reflexivity|]. split; [reflexivity|].
  split; [exact Hstage|exact Hstatus].
Defined.

(** C9 as stated fails: the success directory cannot be made, so the
    file is not moved and stays in the watch directory; the run still
    reports the move as done, returns a result, and the job is
    [finished]. *)
Lemma finished_without_moving :
  let invocation := run source_singletons demo_paths false blocked_world in
  let w' := snd (fst invocation) in
  fst (fst invocation) = Ret (Some (mkResult "a.csv" (VRef 4))) /\
  snd invocation
  = [CallSelect; CallCreateJob; CallTransform "a.csv";
     CallMove "a.csv" (VStr "in") (VStr "ok"); CallUpdateJob "JOB_1";
     CallCleanup "a.csv" None] /\
  os_path_isfile "in/a.csv" (w_fs w') = true /\
  os_path_exists "ok/a.csv" (w_fs w') = false /\
  In (LogError (OSError "FileExistsError")) (w_log w') /\
  In (LogInfo "File moved Successfully") (w_log w') /\
  option_map (dict_get "status") (heap_get 0 (w_heap w'))
  = Some (Some (VStr "finished")).
Proof. vm_compute. repeat split; auto 10. Qed.

(** On the first file the result document keeps its throughput, and the
    summary of the stage is another object that has none. *)
Lemma metrics_moved_out_of_copy_witness :
  exists fr' doc copy doc_dict copy_dict stage,
    route_and_record source_singletons demo_paths demo_file 1000000 (VRef 1)
      "JOB_1" (VRef 3) transformed_demo
    = (Ret (Some (mkResult "a.csv" (VRef doc))), fr') /\
    heap_get doc (w_heap (fr_world fr')) = Some doc_dict /\
    heap_get 0 (w_heap (fr_world fr')) = Some stage /\
    dict_get "summary" stage = Some (VRef copy) /\
    copy <> doc /\
    heap_get copy (w_heap (fr_world fr')) = Some copy_dict /\
    dict_mem "tps" doc_dict = true /\
    dict_mem "tps" copy_dict = false /\
    dict_get "tps" stage = dict_get "tps" doc_dict.
Proof.
  destruct (metrics_moved_out_of_copy demo_paths demo_file 1000000 "JOB_1"
              1 0 3 2 _ _ _ _ transformed_demo transformed_demo_consumable)
    as (fr' & doc & copy & doc_dict & copy_dict & stage & Hrun & Hdoc & Hst
        & Hsum & Hne & Hcopy & Hmoved & _).
  exists fr', doc, copy, doc_dict, copy_dict, stage.
  repeat (split; [assumption|]).
  apply Hmoved. cbn. tauto.
Defined.

(** On the first file the summary dict is left as it was and the totals
    lose their site name. *)
Lemma summary_changes_only_by_site_name_witness :
  exists r fr',
    route_and_record source_singletons demo_paths demo_file 1000000 (VRef 1)
      "JOB_1" (VRef 3) transformed_demo = (r, fr') /\
    heap_get 3 (w_heap (fr_world fr'))
    = heap_get 3 (w_heap (fr_world transformed_demo)) /\
    heap_get 2 (w_heap (fr_world fr'))
    = Some [("raw_lines", VInt 100); ("records_ok", VInt 95);
            ("transactions", VInt 95)].
Proof.
  destruct (summary_changes_only_by_site_name demo_paths demo_file 1000000
              "JOB_1" 1 0 3 2 _ _ _ _ transformed_demo
              transformed_demo_consumable)
    as (r & fr' & Hrun & Hs & _ & _ & Ht & _).
  exists r, fr'. split; [exact Hrun|]. split; [exact Hs|].
  apply Ht. reflexivity.
Defined.

(** C4 as stated fails: in the invocation on the first file the result
    document that is returned still holds the six metric fields. *)
Lemma hist_doc_keeps_metrics :
  let invocation := run source_singletons demo_paths false demo_world in
  fst (fst invocation) = Ret (Some (mkResult "a.csv" (VRef 4))) /\
  option_map (fun d => map (fun k => dict_mem k d) mv_out_arr)
    (heap_get 4 (w_heap (snd (fst invocation))))
  = Some [true; true; true; true; true; true].
Proof. split; reflexivity. Qed.

(** C5 as stated fails: the totals of the summary that the transformer
    returned hold a site name, and after the rest of the body they do
    not. *)
Lemma summary_totals_lose_site_name :
  open_job_and_transform source_singletons demo_file
    (selected_frame demo_world demo_file)
  = (Ret (mkTransformed 1000000 (VRef 1) "JOB_1" (VRef 3)), transformed_demo) /\
  let fr' :=
    snd (route_and_record source_singletons demo_paths demo_file 1000000
           (VRef 1) "JOB_1" (VRef 3) transformed_demo) in
  heap_get 3 (w_heap (fr_world transformed_demo))
  = Some [("totals", VRef 2); ("error", VNone)] /\
  option_map (dict_get "site_name")
    (heap_get 2 (w_heap (fr_world transformed_demo)))
  = Some (Some (VStr "Site_A")) /\
  option_map (dict_get "site_name") (heap_get 2 (w_heap (fr_world fr')))
  = Some None.
Proof. repeat split. Qed.

(** * Further properties of the code *)

(** ** Sequences and the job store *)

Lemma counters_set (s : dict) (name : string) (n : Z) :
  counters s -> counters (dict_set name (VInt n) s).
Proof.
  intros H k v. rewrite dict_get_set.
  destruct (String.eqb k name); [intros [= <-]; eexists; reflexivity|].
  apply H.
Qed.

Lemma get_sequence_run (name : string) (s : dict) :
  counters s ->
  MongoCommonCollections.get_sequence name s
  = (Ret (VInt (sequence_of s name + 1)),
     dict_set name (VInt (sequence_of s name + 1))
       (if dict_mem name s then s else dict_set name (VInt 0) s)).
Proof.
  intros Hc. unfold MongoCommonCollections.get_sequence, sequence_of, dict_mem.
  destruct (dict_get name s) as [v|] eqn:E.
  - destruct (Hc _ _ E) as [n ->]. rewrite E. cbn.
    rewrite dict_get_set, String.eqb_refl. reflexivity.
  - rewrite dict_get_set, String.eqb_refl. cbn.
    rewrite dict_get_set, String.eqb_refl. reflexivity.
Qed.

Lemma sequence_of_after (name k : string) (s : dict) :
  sequence_of
    (dict_set name (VInt (sequence_of s name + 1))
       (if dict_mem name s then s else dict_set name (VInt 0) s)) k
  = if String.eqb k name then (sequence_of s name + 1)%Z else sequence_of s k.
Proof.
  unfold sequence_of at 1. rewrite dict_get_set.
  destruct (String.eqb k name) eqn:E; [reflexivity|].
  destruct (dict_mem name s); [reflexivity|].
  rewrite dict_get_set, E. reflexivity.
Qed.

Lemma counters_after (name : string) (s : dict) :
  counters s ->
  counters
    (dict_set name (VInt (sequence_of s name + 1))
       (if dict_mem name s then s else dict_set name (VInt 0) s)).
Proof.
  intros H. apply counters_set. destruct (dict_mem name s); [exact H|].
  apply counters_set, H.
Qed.

(** X4: on a sequences dict that holds integers, successive calls of
    [get_sequence] all return; each call returns the counter its name
    had at the start plus the number of calls made for this name so far,
    this one included, so the first call for a new name gives 1; and
    each counter ends at its start plus the number of calls for its
    name, so a name is not moved by calls for other names. *)
Theorem get_sequence_counts (names : list string) (s : dict) :
  counters s ->
  exists vs s',
    get_sequences names s = (Ret vs, s') /\
    (forall i name,
       nth_error names i = Some name ->
       nth_error vs i
       = Some (VInt (sequence_of s name
                     + Z.of_nat (occurrences name (firstn (S i) names))))) /\
    (forall name,
       sequence_of s' name
       = (sequence_of s name + Z.of_nat (occurrences name names))%Z) /\
    counters s'.
Proof.
  revert s. induction names as [|n0 rest IH]; intros s Hc.
  - exists [], s. split; [reflexivity|]. split; [|split; [|exact Hc]].
    + intros [|i] name; discriminate.
    + intros name. cbn. lia.
  - destruct (IH _ (counters_after n0 s Hc))
      as (vs & s' & Hrun & Hnth & Hfin & Hc').
    exists (VInt (sequence_of s n0 + 1) :: vs), s'.
    split; [|split; [|split; [|exact Hc']]].
    + cbn [get_sequences bind]. rewrite (get_sequence_run n0 s Hc), Hrun.
      reflexivity.
    + intros [|i] name Hi.
      * injection Hi as <-. cbn [firstn nth_error]. unfold occurrences.
        cbn [filter]. rewrite String.eqb_refl. reflexivity.
      * cbn [nth_error] in Hi |- *. rewrite (Hnth i name Hi).
        rewrite sequence_of_after.
        change (firstn (S (S i)) (n0 :: rest))
          with (n0 :: firstn (S i) rest).
        unfold occurrences. cbn [filter].
        destruct (String.eqb name n0) eqn:E.
        -- apply String.eqb_eq in E. subst n0. cbn [length].
           do 2 f_equal. lia.
        -- reflexivity.
    + intros name. rewrite Hfin, sequence_of_after.
      unfold occurrences. cbn [filter].
      destruct (String.eqb name n0) eqn:E.
      * apply String.eqb_eq in E. subst n0. cbn [length]. lia.
      * reflexivity.
Qed.

Lemma get_sequence_counts_witness :
  exists vs s',
    get_sequences ["order"; "invoice"; "order"] [] = (Ret vs, s') /\
    nth_error vs 2 = Some (VInt 2) /\
    sequence_of s' "invoice" = 1%Z.
Proof.
  destruct (get_sequence_counts ["order"; "invoice"; "order"] [])
    as (vs & s' & Hrun & Hnth & Hfin & _).
  - intros name v H. discriminate H.
  - exists vs, s'. split; [exact Hrun|]. split.
    + apply (Hnth 2 "order"). reflexivity.
    + apply (Hfin "invoice").
Defined.

(** The job store *)

Lemma job_name_inj (n m : Z) : job_name n = job_name m -> n = m.
Proof.
  unfold job_name. intros H.
  assert (NilZero.string_of_int (Z.to_int n)
          = NilZero.string_of_int (Z.to_int m)) as Hs.
  { cbn in H. congruence. }
  assert (forall z, NilZero.int_of_string (NilZero.string_of_int (Z.to_int z))
                    = Some (Z.to_int z)) as Hisi.
  { intros z. apply NilZero.isi; destruct z; cbn; try discriminate;
      intros [= E]; apply (Unsigned.to_uint_nonnil _ E). }
  apply to_int_inj.
  pose proof (Hisi n) as Hn. rewrite Hs, Hisi in Hn. congruence.
Qed.

Section JobStoreFacts.
Context {os : OS}.

(** X2: in a store whose ids are those the counter has given,
    [create_job] returns the id of the next count, which no stored job
    has; the store then holds the payload object itself under this id
    and every other job as before, the counter is one more, the heap and
    the file system are untouched, and the store is again of that
    kind. *)
Theorem create_job_fresh_id (payload : value) (w : world) :
  store_ok w ->
  exists w',
    let job_id := job_name (w_job_counter w + 1) in
    MongoCommonCollections.create_job payload w = (Ret job_id, w') /\
    dict_get job_id (w_jobs w) = None /\
    dict_get job_id (w_jobs w') = Some payload /\
    (forall id, id <> job_id ->
       dict_get id (w_jobs w') = dict_get id (w_jobs w)) /\
    w_job_counter w' = (w_job_counter w + 1)%Z /\
    w_heap w' = w_heap w /\
    w_fs w' = w_fs w /\
    store_ok w'.
Proof.
  intros [Hpos Hids]. destruct w as [fs h jobs c tid clk slp lg].
  cbn [w_jobs w_job_counter w_heap w_fs] in *.
  eexists. cbv zeta. split; [reflexivity|].
  cbn [w_jobs w_job_counter w_heap w_fs with_jobs with_job_counter with_log].
  split; [|split; [|split; [|split; [|split; [|split]]]]]; try reflexivity.
  - destruct (dict_get (job_name (c + 1)) jobs) as [v|] eqn:E;
      [|reflexivity].
    destruct (Hids _ _ E) as (n & Hn & Heq). apply job_name_inj in Heq. lia.
  - rewrite dict_get_set, String.eqb_refl. reflexivity.
  - intros id Hid. rewrite dict_get_set. apply String.eqb_neq in Hid.
    rewrite Hid. reflexivity.
  - split; [cbn; lia|]. intros id v. cbn. rewrite dict_get_set.
    destruct (String.eqb id (job_name (c + 1))) eqn:E.
    + apply String.eqb_eq in E. intros _. exists (c + 1)%Z.
      split; [lia|exact E].
    + intros Hv. destruct (Hids _ _ Hv) as (n & Hn & Heq).
      exists n. split; [lia|exact Heq].
Qed.

End JobStoreFacts.

Lemma create_job_fresh_id_witness :
  exists w',
    MongoCommonCollections.create_job (VRef 0) demo_world = (Ret "JOB_1", w') /\
    dict_get "JOB_1" (w_jobs w') = Some (VRef 0) /\
    store_ok w'.
Proof.
  destruct (create_job_fresh_id (VRef 0) demo_world)
    as (w' & Hrun & _ & Hget & _ & _ & _ & _ & Hok).
  - split; [cbn; lia|]. intros id v H. discriminate H.
  - exists w'. split; [exact Hrun|]. split; [exact Hget|exact Hok].
Defined.

(** [d.update(patch)] read key by key. *)
Lemma dict_get_update (k : string) (d patch : dict) :
  NoDup (dict_keys patch) ->
  dict_get k (dict_update d patch)
  = match dict_get k patch with
    | Some v => Some v
    | None => dict_get k d
    end.
Proof.
  unfold dict_update. revert d.
  induction patch as [|[k0 v0] patch IH]; intros d Hnd; [reflexivity|].
  cbn [fold_left fst snd dict_get]. cbn in Hnd.
  apply NoDup_cons_iff in Hnd. destruct Hnd as [Hnotin Hnd].
  rewrite (IH _ Hnd), dict_get_set.
  destruct (String.eqb k k0) eqn:E; [|reflexivity].
  apply String.eqb_eq in E. subst k0.
  destruct (dict_get k patch) as [v|] eqn:Eg; [|reflexivity].
  exfalso. apply Hnotin. clear -Eg.
  induction patch as [|[k1 v1] patch IH]; [discriminate|].
  cbn in Eg |- *. destruct (String.eqb k k1) eqn:E.
  - left. apply String.eqb_eq in E. symmetry. exact E.
  - right. apply IH, Eg.
Qed.

Lemma dict_set_same (k : string) (v : value) (d : dict) :
  dict_get k d = Some v -> dict_set k v d = d.
Proof.
  induction d as [|[k0 v0] d IH]; cbn; [discriminate|].
  destruct (String.eqb k k0); [intros [= ->]; reflexivity|].
  intros H. rewrite (IH H). reflexivity.
Qed.

Lemma dict_update_same (d patch : dict) :
  (forall k v, In (k, v) patch -> dict_get k d = Some v) ->
  dict_update d patch = d.
Proof.
  unfold dict_update. induction patch as [|[k0 v0] patch IH]; intros H;
    [reflexivity|].
  cbn [fold_left fst snd].
  rewrite (dict_set_same k0 v0 d) by (apply H; left; reflexivity).
  apply IH. intros k v Hin. apply H. right. exact Hin.
Qed.

Lemma dict_get_In (k : string) (v : value) (d : dict) :
  NoDup (dict_keys d) -> In (k, v) d -> dict_get k d = Some v.
Proof.
  induction d as [|[k0 v0] d IH]; intros Hnd Hin; [destruct Hin|].
  cbn in Hnd. apply NoDup_cons_iff in Hnd. destruct Hnd as [Hnotin Hnd].
  cbn. destruct Hin as [[= -> ->]|Hin].
  - rewrite String.eqb_refl. reflexivity.
  - destruct (String.eqb k k0) eqn:E; [|apply IH; assumption].
    apply String.eqb_eq in E. subst k0. exfalso. apply Hnotin.
    apply (in_map fst) in Hin. exact Hin.
Qed.

Section JobUpdateFacts.
Context {os : OS}.

(** X3: [update_job] on a stored job merges the patch into the stored
    record, key by key (a key of the patch takes the value of the patch,
    any other key keeps its value), returns [True] and logs one line; no
    other object changes, the store keeps its entries, and a patch that
    is the stored object itself, as the orchestrator passes, leaves the
    heap as it was.  A dict object has no key twice. *)
Theorem update_job_merges_patch (job_id : string) (l q : loc)
    (record patch : dict) (w : world) :
  dict_get job_id (w_jobs w) = Some (VRef l) ->
  heap_get l (w_heap w) = Some record ->
  heap_get q (w_heap w) = Some patch ->
  NoDup (dict_keys patch) ->
  exists w' record',
    MongoCommonCollections.update_job job_id (VRef q) w = (Ret true, w') /\
    w_jobs w' = w_jobs w /\
    heap_get l (w_heap w') = Some record' /\
    (forall k,
       dict_get k record'
       = match dict_get k patch with
         | Some v => Some v
         | None => dict_get k record
         end) /\
    (forall l', l' <> l -> heap_get l' (w_heap w') = heap_get l' (w_heap w)) /\
    (q = l -> w_heap w' = w_heap w) /\
    w_log w' = w_log w ++ [LogInfo ("Job updated: " ++ job_id)].
Proof.
  intros Hjob Hl Hq Hnd. destruct w as [fs h jobs c tid clk slp lg].
  cbn [w_jobs w_heap w_log] in *.
  unfold MongoCommonCollections.update_job, py_update, deref, store, log_info.
  cbn. rewrite Hjob. cbn. rewrite Hl. cbn. rewrite Hq. cbn.
  eexists _, _. split; [reflexivity|]. cbn.
  pose proof (heap_get_lt _ _ _ Hl) as Hlt.
  split; [reflexivity|]. split; [|split; [|split; [|split]]].
  - rewrite heap_get_set_valid by exact Hlt. rewrite Nat.eqb_refl.
    reflexivity.
  - intros k. apply dict_get_update, Hnd.
  - intros l' Hne. rewrite heap_get_set_valid by exact Hlt.
    apply Nat.eqb_neq in Hne. rewrite Hne. reflexivity.
  - intros ->. assert (patch = record) as -> by congruence.
    rewrite dict_update_same; [apply heap_set_same, Hl|].
    intros k v. apply dict_get_In, Hnd.
  - reflexivity.
Qed.

End JobUpdateFacts.

Lemma update_job_merges_patch_witness :
  exists w',
    MongoCommonCollections.update_job "JOB_1" (VRef 1)
      (fr_world transformed_demo) = (Ret true, w') /\
    w_heap w' = w_heap (fr_world transformed_demo).
Proof.
  destruct (update_job_merges_patch "JOB_1" 1 1
              [("process_id", VStr "FileProcessor"); ("file", VStr "a.csv");
               ("star_date", VIso 1000000); ("input_processor", VRef 0)]
              [("process_id", VStr "FileProcessor"); ("file", VStr "a.csv");
               ("star_date", VIso 1000000); ("input_processor", VRef 0)]
              (fr_world transformed_demo))
    as (w' & record' & Hrun & _ & _ & _ & _ & Hsame & _).
  - reflexivity.
  - reflexivity.
  - reflexivity.
  - repeat (constructor; [simpl; intuition discriminate|]). constructor.
  - exists w'. split; [exact Hrun|]. apply Hsame. reflexivity.
Defined.

Lemma name_le_antisym (r : bool) (a b : string) :
  name_le r a b = true -> name_le r b a = true -> a = b.
Proof.
  unfold name_le. destruct r; intros H1 H2.
  - apply String.leb_antisym; assumption.
  - apply String.leb_antisym; assumption.
Qed.

(** Two lists with the same names have the same first name once sorted. *)
Lemma py_sort_same_first (r : bool) (l l' : list string) :
  (forall f, In f l <-> In f l') ->
  hd_error (py_sort r l) = hd_error (py_sort r l').
Proof.
  intros Hsame.
  destruct l as [|x l].
  - destruct l' as [|x' l']; [reflexivity|].
    destruct (proj2 (Hsame x')). left. reflexivity.
  - destruct l' as [|x' l'].
    + destruct (proj1 (Hsame x)). left. reflexivity.
    + destruct (py_sort_first r (x :: l)) as (a & ra & Ea & Hina & Hba);
        [discriminate|].
      destruct (py_sort_first r (x' :: l')) as (b & rb & Eb & Hinb & Hbb);
        [discriminate|].
      rewrite Ea, Eb. cbn. f_equal. apply (name_le_antisym r).
      * apply Hba, Hsame, Hinb.
      * apply Hbb, Hsame, Hina.
Qed.

Section SelectorFacts.
Context {os : OS}.

(** X1: with a string for the watch directory, the selection does not
    depend on the order in which [os.listdir] gives the names: on two
    file systems whose listings hold the same names, with the same
    regular files among them, the selector returns the same thing, and
    it changes neither world. *)
Theorem select_ignores_listing_order (files_path : dict) (reverse : bool)
    (dir : string) (names names' : list string) (fs' : FS) (w : world) :
  path_of files_path "repo_path" = VStr dir ->
  os_listdir dir (w_fs w) = inr names ->
  os_listdir dir fs' = inr names' ->
  os_path_exists dir fs' = os_path_exists dir (w_fs w) ->
  (forall f, In f names <-> In f names') ->
  (forall f, In f names ->
     os_path_isfile (os_path_join dir f) fs'
     = os_path_isfile (os_path_join dir f) (w_fs w)) ->
  exists r,
    FilesManager.get_first_available_file files_path reverse w = (Ret r, w) /\
    FilesManager.get_first_available_file files_path reverse (with_fs fs' w)
    = (Ret r, with_fs fs' w).
Proof.
  intros Hp Hls Hls' Hex Hsame Hfile.
  destruct w as [fs h jobs c tid clk slp lg]. cbn [w_fs] in *.
  unfold FilesManager.get_first_available_file, py_truthy, get_heap,
    path_exists, listdir.
  rewrite Hp. cbn. destruct (String.eqb dir ""); cbn;
    [exists None; split; reflexivity|].
  rewrite Hex. destruct (os_path_exists dir fs); cbn;
    [|exists None; split; reflexivity].
  rewrite Hls, Hls'. cbn -[py_sort filter].
  set (files := filter (fun f => os_path_isfile (os_path_join dir f) fs) names).
  set (files' :=
         filter (fun f => os_path_isfile (os_path_join dir f) fs') names').
  assert (forall f, In f files <-> In f files') as Hfiles.
  { intros f. unfold files, files'. rewrite !filter_In. split.
    - intros [Hin Hf]. split; [apply Hsame, Hin|].
      rewrite (Hfile f Hin). exact Hf.
    - intros [Hin Hf]. apply Hsame in Hin. split; [exact Hin|].
      rewrite <- (Hfile f Hin). exact Hf. }
  pose proof (py_sort_same_first reverse files files' Hfiles) as Hhd.
  destruct files as [|x l].
  - destruct files' as [|x' l'].
    + exists None. split; reflexivity.
    + destruct (proj2 (Hfiles x')). left. reflexivity.
  - destruct files' as [|x' l'].
    + destruct (proj1 (Hfiles x)). left. reflexivity.
    + destruct (py_sort_first reverse (x :: l)) as (a & ra & Ea & _);
        [discriminate|].
      destruct (py_sort_first reverse (x' :: l')) as (b & rb & Eb & _);
        [discriminate|].
      rewrite Ea, Eb in Hhd. injection Hhd as <-.
      rewrite Ea, Eb. eexists. split; reflexivity.
Qed.

End SelectorFacts.

Lemma select_ignores_listing_order_witness :
  exists r,
    FilesManager.get_first_available_file demo_paths false demo_world
    = (Ret r, demo_world) /\
    FilesManager.get_first_available_file demo_paths false
      (@with_fs SimpleFS.simple_os demo_fs_reordered demo_world)
    = (Ret r, @with_fs SimpleFS.simple_os demo_fs_reordered demo_world).
Proof.
  apply (@select_ignores_listing_order SimpleFS.simple_os demo_paths false
           "in"
           ["b.csv"; "a.csv"; "sub"] ["a.csv"; "sub"; "b.csv"]
           demo_fs_reordered demo_world).
  - reflexivity.
  - reflexivity.
  - reflexivity.
  - reflexivity.
  - intros f. simpl. tauto.
  - intros f Hin. simpl in Hin.
    destruct Hin as [<-|[<-|[<-|[]]]]; reflexivity.
Defined.

(** ** The transformer and the metrics *)

Section TransformerFacts.
Context {os : OS}.


End TransformerFacts.


Section Quiet.
Context {os : OS}.

Lemma quiet_ret {A} (a : A) : quiet (ret a).
Proof. intros w r w' [= <- <-]. repeat split. Qed.

Lemma quiet_raise {A} (e : exn) : quiet (@raise world A e).
Proof. intros w r w' [= <- <-]. repeat split. Qed.

Lemma quiet_bind {A B} (m : M A) (k : A -> M B) :
  quiet m -> (forall a, quiet (k a)) -> quiet (bind m k).
Proof.
  intros Hm Hk w r w'. unfold bind.
  destruct (m w) as [[a|e] w1] eqn:E.
  - intros H. destruct (Hm _ _ _ E) as (H1 & H2 & H3 & H4 & H5).
    destruct (Hk a _ _ _ H) as (K1 & K2 & K3 & K4 & K5).
    repeat split; congruence.
  - intros [= <- <-]. apply (Hm _ _ _ E).
Qed.

Lemma quiet_deref (err : exn) (v : value) : quiet (deref err v).
Proof.
  intros w r w'. unfold deref. destruct v; try (intros [= <- <-]; repeat split).
  destruct (heap_get l (w_heap w)); intros [= <- <-]; repeat split.
Qed.

Lemma quiet_store (v : value) (d : dict) : quiet (store v d).
Proof.
  intros w r w'. unfold store.
  destruct v; intros [= <- <-]; repeat split.
Qed.

Lemma quiet_alloc (d : dict) : quiet (alloc d).
Proof. intros w r w'. unfold alloc. cbn. intros [= <- <-]. repeat split. Qed.

Lemma quiet_get_heap : quiet get_heap.
Proof. intros w r w' [= <- <-]. repeat split. Qed.

Lemma quiet_datetime_now : quiet datetime_now.
Proof. intros w r w' [= <- <-]. repeat split. Qed.

Lemma quiet_py_getitem (v : value) (k : string) : quiet (py_getitem v k).
Proof.
  apply quiet_bind; [apply quiet_deref|]. intros d.
  destruct (dict_get k d); [apply quiet_ret|apply quiet_raise].
Qed.

Lemma quiet_py_get (v : value) (k : string) : quiet (py_get v k).
Proof.
  apply quiet_bind; [apply quiet_deref|]. intros d. apply quiet_ret.
Qed.

Lemma quiet_py_setitem (v : value) (k : string) (x : value) :
  quiet (py_setitem v k x).
Proof.
  apply quiet_bind; [apply quiet_deref|]. intros d. apply quiet_store.
Qed.

Lemma quiet_py_or_m (x y : value) : quiet (py_or_m x y).
Proof.
  apply quiet_bind; [apply quiet_get_heap|]. intros h. apply quiet_ret.
Qed.

Lemma quiet_py_truediv (a b : value) : quiet (py_truediv a b).
Proof.
  unfold py_truediv.
  destruct (as_number a); [|apply quiet_raise].
  destruct (as_number b); [|apply quiet_raise].
  destruct (Qeq_bool q0 0); [apply quiet_raise|apply quiet_ret].
Qed.

Lemma quiet_py_mul (a b : value) : quiet (py_mul a b).
Proof.
  unfold py_mul.
  destruct a, b; cbn; try apply quiet_ret; try apply quiet_raise.
Qed.

Lemma quiet_for_each {A} (l : list A) (f : A -> M unit) :
  (forall a, quiet (f a)) -> quiet (for_each l f).
Proof.
  intros Hf. induction l as [|a l IH]; cbn [for_each].
  - apply quiet_ret.
  - apply quiet_bind; [apply Hf|]. intros _. exact IH.
Qed.

End Quiet.

Section MetricsFaults.
Context {os : OS}.

(** X6: [create_process_doc] logs a fault once and raises the same
    exception again, and logs nothing when it returns; in both cases it
    leaves the file system and the job store alone.  A summary without
    totals gives [KeyError('totals')], totals without [records_ok] give
    [KeyError('records_ok')]. *)
Theorem create_process_doc_logs_and_reraises (start : Z) (summary : value)
    (w : world) :
  (forall e w',
     create_process_doc start summary w = (Raise e, w') ->
     w_log w' = w_log w ++ [LogError e] /\
     w_fs w' = w_fs w /\ w_jobs w' = w_jobs w) /\
  (forall v w',
     create_process_doc start summary w = (Ret v, w') ->
     w_log w' = w_log w /\ w_fs w' = w_fs w /\ w_jobs w' = w_jobs w) /\
  (forall s sd,
     summary = VRef s -> heap_get s (w_heap w) = Some sd ->
     dict_get "totals" sd = None ->
     fst (create_process_doc start summary w) = Raise (KeyError "totals")) /\
  (forall s sd t td,
     summary = VRef s -> heap_get s (w_heap w) = Some sd ->
     dict_get "totals" sd = Some (VRef t) ->
     heap_get t (w_heap w) = Some td ->
     dict_get "records_ok" td = None ->
     fst (create_process_doc start summary w) = Raise (KeyError "records_ok")).
Proof.
  assert (forall r w',
            create_process_doc start summary w = (r, w') ->
            w_log w' = w_log w ++ match r with
                                  | Ret _ => []
                                  | Raise e => [LogError e]
                                  end /\
            w_fs w' = w_fs w /\ w_jobs w' = w_jobs w) as Hlog.
  { intros r w'. unfold create_process_doc.
    match goal with
    | |- try_except ?b _ _ = _ -> _ => assert (quiet b) as Hq
    end.
    { repeat first
        [ apply quiet_alloc | apply quiet_py_getitem | apply quiet_py_get
        | apply quiet_py_setitem | apply quiet_datetime_now
        | apply quiet_py_truediv | apply quiet_py_or_m | apply quiet_py_mul
        | apply quiet_deref | apply quiet_ret
        | apply quiet_for_each; intro
        | apply quiet_bind; [|intro]
        | match goal with
          | |- quiet (if ?c then _ else _) => destruct c
          end ]. }
    unfold try_except.
    match goal with
    | |- match ?b w with _ => _ end = _ -> _ =>
        destruct (b w) as [[v|e] w1] eqn:E
    end.
    - intros [= <- <-]. destruct (Hq _ _ _ E) as (H1 & H2 & H3 & _).
      rewrite app_nil_r. repeat split; assumption.
    - unfold unexpected_err. cbn. intros [= <- <-].
      destruct (Hq _ _ _ E) as (H1 & H2 & H3 & _). cbn.
      rewrite H1. repeat split; assumption. }
  split; [|split; [|split]].
  - intros e w' H. apply (Hlog _ _ H).
  - intros v w' H. destruct (Hlog _ _ H) as (H1 & H2).
    rewrite app_nil_r in H1. split; assumption.
  - intros s sd -> Hs Ht. destruct w as [fs h jobs c tid clk slp lg].
    cbn [w_heap] in Hs. pose proof (heap_get_lt _ _ _ Hs).
    unfold create_process_doc, py_getitem, alloc, heap_alloc, deref,
      unexpected_err.
    metric_steps. reflexivity.
  - intros s sd t td -> Hs Htot Ht Hok.
    destruct w as [fs h jobs c tid clk slp lg].
    cbn [w_heap] in Hs, Ht. pose proof (heap_get_lt _ _ _ Hs).
    pose proof (heap_get_lt _ _ _ Ht).
    unfold create_process_doc, py_getitem, py_setitem, py_truediv, alloc,
      heap_alloc, deref, store, datetime_now, unexpected_err.
    metric_steps. reflexivity.
Qed.

End MetricsFaults.

Lemma create_process_doc_logs_and_reraises_witness :
  exists w',
    create_process_doc 0 (VRef 0) no_totals_world
    = (Raise (KeyError "totals"), w') /\
    w_log w' = [LogError (KeyError "totals")].
Proof.
  destruct (create_process_doc_logs_and_reraises 0 (VRef 0) no_totals_world)
    as (Hraise & _ & Hmissing & _).
  specialize (Hmissing 0 [("error", VNone)] eq_refl eq_refl eq_refl).
  destruct (create_process_doc 0 (VRef 0) no_totals_world) as [r w'] eqn:E.
  cbn in Hmissing. subst r. exists w'. split; [reflexivity|].
  apply (Hraise _ _ eq_refl).
Defined.

Section MetricsRanges.
Context {os : OS}.

(** X7: with [0 <= records_ok <= raw_lines], [raw_lines] positive and
    [transactions] of a size a float holds exactly,
    [create_process_doc] returns; the percentage of valid records it
    stores is between 0 and 100, is 100 when all lines are valid and 0
    when none is, and the throughput it stores is within the range of
    the finite floats. *)
Theorem valid_transac_perc_in_range (start : Z) (s t : loc) (td : dict)
    (ev : value) (ok n : Z) (w : world) :
  heap_get s (w_heap w) = Some [("totals", VRef t); ("error", ev)] ->
  heap_get t (w_heap w) = Some td ->
  dict_get "records_ok" td = Some (VInt ok) ->
  dict_get "raw_lines" td = Some (VInt n) ->
  is_count (dict_get "transactions" td) = true ->
  count_within exact_float_bound (dict_get "transactions" td) ->
  (0 <= ok <= n)%Z -> (0 < n)%Z ->
  exists doc d w' perc tps,
    create_process_doc start (VRef s) w = (Ret (VRef doc), w') /\
    heap_get doc (w_heap w') = Some d /\
    dict_get "valid_transac_perc" d = Some (VFloat perc) /\
    (0 <= perc)%Q /\ (perc <= 100)%Q /\
    (ok = n -> (perc == 100)%Q) /\
    (ok = 0%Z -> (perc == 0)%Q) /\
    dict_get "tps" d = Some (VFloat tps) /\ finite tps.
Proof.
  intros Hs Ht Hok Hraw Htr Htrb Hrange Hpos.
  assert (is_count (dict_get "raw_lines" td) = true) as Hraw'
    by (rewrite Hraw; reflexivity).
  rewrite (create_process_doc_run start s t td ev ok w Hs Ht Hok Hraw' Htr).
  destruct w as [fs h jobs c tid clk slp lg]. cbn [w_heap w_clock with_heap].
  eexists _, _, _, _, _. split; [reflexivity|]. split.
  { cbn. rewrite Nat.eqb_refl. reflexivity. }
  unfold process_doc. cbn [app dict_get String.eqb Ascii.eqb Bool.eqb].
  rewrite Hraw. unfold count_or at 1.
  replace (Z.eqb n 0) with false by (symmetry; apply Z.eqb_neq; lia).
  split; [reflexivity|].
  assert (forall a b : Z, (0 < b)%Z ->
            (Qred (Qred (inject_Z a / inject_Z b) * inject_Z 100)
             == inject_Z (100 * a) / inject_Z b)%Q) as Heq.
  { intros a b Hb. rewrite !Qred_correct.
    unfold Qeq, Qdiv, Qmult, Qinv, inject_Z. destruct b; try lia.
    cbn -[Z.mul Pos.mul Z.quot]. nia. }
  split; [|split; [|split; [|split; [|split; [reflexivity|]]]]].
  - rewrite (Heq ok n Hpos).
    unfold Qle, Qdiv, Qmult, Qinv, inject_Z. destruct n; try lia.
    cbn -[Z.mul Pos.mul Z.quot]. nia.
  - rewrite (Heq ok n Hpos).
    unfold Qle, Qdiv, Qmult, Qinv, inject_Z. destruct n; try lia.
    cbn -[Z.mul Pos.mul Z.quot]. nia.
  - intros ->. rewrite (Heq n n Hpos).
    unfold Qeq, Qdiv, Qmult, Qinv, inject_Z. destruct n; try lia.
    cbn -[Z.mul Pos.mul Z.quot]. nia.
  - intros ->. rewrite (Heq 0%Z n Hpos).
    unfold Qeq, Qdiv, Qmult, Qinv, inject_Z. destruct n; try lia.
    cbn -[Z.mul Pos.mul Z.quot]. nia.
  - apply tps_finite, count_or_within; [exact Htrb|].
    unfold exact_float_bound. lia.
Qed.

End MetricsRanges.

Lemma valid_transac_perc_in_range_witness :
  exists doc d w' perc,
    create_process_doc 1000000 (VRef 3) (fr_world transformed_demo)
    = (Ret (VRef doc), w') /\
    heap_get doc (w_heap w') = Some d /\
    dict_get "valid_transac_perc" d = Some (VFloat perc) /\
    (0 <= perc)%Q /\ (perc <= 100)%Q.
Proof.
  destruct (valid_transac_perc_in_range 1000000 3 2
              [("raw_lines", VInt 100); ("records_ok", VInt 95);
               ("transactions", VInt 95); ("site_name", VStr "Site_A")]
              VNone 95 100 (fr_world transformed_demo))
    as (doc & d & w' & perc & tps & Hrun & Hdoc & Hperc & Hlo & Hhi & _);
    try reflexivity; try lia.
  - intros n [= <-]. vm_compute. discriminate.
  - exists doc, d, w', perc. repeat (split; [assumption|]). assumption.
Defined.

(** ** Whole invocations *)

Lemma bind_ret_eq {S A B} (m : comp S A) (k : A -> comp S B) (s s' : S)
    (a : A) :
  m s = (Ret a, s') -> bind m k s = k a s'.
Proof. intros H. unfold bind. rewrite H. reflexivity. Qed.

Section SourceInvocations.
Context {os : OS}.

Lemma process_selected_eq (sg : singletons) (files_path : dict)
    (file : pending_file) (fr fr' : frame) (tr : transformed) :
  open_job_and_transform sg file fr = (Ret tr, fr') ->
  process_selected sg files_path file fr
  = route_and_record sg files_path file (tr_start tr) (tr_job_payload tr)
      (tr_job_id tr) (tr_summary tr) fr'.
Proof.
  intros H. unfold process_selected.
  apply (bind_ret_eq (open_job_and_transform sg file)
           (fun tr => route_and_record sg files_path file (tr_start tr)
                        (tr_job_payload tr) (tr_job_id tr) (tr_summary tr))).
  exact H.
Qed.

(** With the singletons of the source, lines 193 to 210 return: the job
    is opened under the next id and stored, and the error of the summary
    carries the flag FAIL exactly when the await of the transformer
    raised. *)
Lemma open_job_and_transform_source (file : pending_file) (fr : frame) :
  let w := fr_world fr in
  let job_id := job_name (w_job_counter w + 1) in
  exists start p st s t std td ev ok h' jobs' lg',
    open_job_and_transform source_singletons file fr
    = (Ret (mkTransformed start (VRef p) job_id (VRef s)),
       mkFrame
         (mkWorld (w_fs w) h' jobs' (w_job_counter w + 1) (VStr job_id)
            (tl (w_clock w)) (w_sleep w) lg')
         (calls fr ++ [CallCreateJob; CallTransform (file_name file)])
         (local_err fr) (file_to_proc fr) (process_results_doc fr)) /\
    consumable
      (mkWorld (w_fs w) h' jobs' (w_job_counter w + 1) (VStr job_id)
         (tl (w_clock w)) (w_sleep w) lg')
      job_id p st s t std td ev ok /\
    eq_str (flag_of h' ev) OnFileProcErr.FAIL = sleep_fails w /\
    (forall id, id <> job_id -> dict_get id jobs' = dict_get id (w_jobs w)).
Proof.
  destruct fr as [w cs0 le ftp prd].
  destruct w as [fs h jobs c tid clk slp lg].
  cbv zeta. unfold open_job_and_transform. cbn.
  unfold FileParser.import_feed_file, MongoCommonCollections.create_job,
    datetime_now, log_info, alloc, heap_alloc, set_task_id, asyncio_sleep,
    sleep_fails.
  cbn. destruct slp as [e|]; cbn.
  - eexists _, (S (length h)), (length h), (6 + length h),
      (4 + length h), _, _, _, 0%Z, _, _, _.
    split; [rewrite <- !app_assoc; reflexivity|].
    split; [|split].
    + constructor; cbn; heap_steps; try reflexivity.
      * eexists _, _, _. reflexivity.
      * rewrite dict_get_set, String.eqb_refl. reflexivity.
      * split; [lia|]. split; [lia|]. eexists. heap_steps.
        split; reflexivity.
      * lia.
    + unfold flag_of. heap_steps. reflexivity.
    + intros id Hid. rewrite dict_get_set. apply String.eqb_neq in Hid.
      rewrite Hid. reflexivity.
  - eexists _, (S (length h)), (length h), (S (S (S (length h)))),
      (S (S (length h))), _, _, _, 95%Z, _, _, _.
    split; [rewrite <- !app_assoc; reflexivity|].
    split; [|split].
    + constructor; cbn; heap_steps; try reflexivity.
      * eexists _, _, _. reflexivity.
      * rewrite dict_get_set, String.eqb_refl. reflexivity.
      * lia.
    + reflexivity.
    + intros id Hid. rewrite dict_get_set. apply String.eqb_neq in Hid.
      rewrite Hid. reflexivity.
Qed.

(** The result document of lines 212 to 247 can be serialised. *)
Lemma route_and_record_json (files_path : dict) (file : pending_file)
    (start : Z) (job_id : string) (p st s t : loc) (std td : dict)
    (ev : value) (ok : Z) (fr fr' : frame) (r : result) :
  consumable (fr_world fr) job_id p st s t std td ev ok ->
  route_and_record source_singletons files_path file start (VRef p) job_id
    (VRef s) fr = (Ret (Some r), fr') ->
  json_ok (length (w_heap (fr_world fr'))) (w_heap (fr_world fr'))
    (hist_doc r) = true.
Proof.
  intros Hc Hret.
  destruct (route_and_record_run files_path file start job_id p st s t std td
              ev ok fr Hc)
    as (b & fs & lg & h' & lg' & stage & _ & Hrun & Hdoc & _ & _ & _ & _ & _
        & _ & _ & Ht & He).
  destruct Hc as [_ _ _ Hs _ Hplain _ _ _ _ Hev _].
  cbv zeta in Hrun, Hdoc.
  rewrite Hrun in Hret. injection Hret as <- <-.
  cbn [hist_doc fr_world w_heap].
  pose proof (heap_get_lt _ _ _ Hs) as Hsl.
  pose proof (heap_get_lt _ _ _ Hdoc) as Hdl.
  destruct (length h') as [|[|n]] eqn:El; try lia.
  cbn [json_ok]. rewrite Hdoc. unfold process_doc.
  cbn [app forallb snd json_ok andb]. rewrite Ht.
  rewrite (plain_json _ _ _ (totals_after_plain _ Hplain)).
  destruct ev as [| | | | | |e]; try (destruct Hev; fail);
    [reflexivity|].
  destruct Hev as (_ & _ & ed & Hed & Hpe).
  cbn [is_dict forallb snd json_ok andb].
  rewrite (He e eq_refl), Hed, (plain_json _ _ _ Hpe). reflexivity.
Qed.

(** An invocation with the singletons of the source that selects a
    file. *)
Lemma source_run_selected (files_path : dict)
    (reverse : bool) (w w1 : world) (file : pending_file) :
  FilesManager.get_first_available_file files_path reverse w
    = (Ret (Some file), w1) ->
  let job_id := job_name (w_job_counter w + 1) in
  let to_path :=
    if sleep_fails w then path_of files_path "err_path"
    else path_of files_path "ok_path" in
  exists doc w' p st payload stage wm b wm',
    run source_singletons files_path reverse w
    = (Ret (Some (mkResult (file_name file) (VRef doc))), w',
       [CallSelect; CallCreateJob; CallTransform (file_name file);
        CallMove (file_name file) (path_of files_path "repo_path") to_path;
        CallUpdateJob job_id; CallCleanup (file_name file) None]) /\
    w_job_counter w' = (w_job_counter w + 1)%Z /\
    w_task_id w' = VNone /\
    (forall id, id <> job_id ->
       dict_get id (w_jobs w') = dict_get id (w_jobs w)) /\
    dict_get job_id (w_jobs w') = Some (VRef p) /\
    heap_get p (w_heap w') = Some payload /\
    dict_get proc_name payload = Some (VRef st) /\
    heap_get st (w_heap w') = Some stage /\
    dict_get "status" stage
    = Some (VStr (if sleep_fails w then "error" else "finished")) /\
    dict_get "summary" stage = Some (VRef (S doc)) /\
    w_fs wm = w_fs w /\
    FilesManager.move_file (file_name file) (path_of files_path "repo_path")
      to_path wm = (Ret b, wm') /\
    w_fs w' = w_fs wm' /\
    json_ok (length (w_heap w')) (w_heap w') (VRef doc) = true.
Proof.
  intros Hsel.
  pose proof (get_first_available_file_pure _ _ _ _ _ Hsel). subst w1.
  destruct (run_selected source_singletons _ _ _ _ _ Hsel)
    as (r & fr1 & Hbody & Hrun).
  destruct (open_job_and_transform_source file (selected_frame w file))
    as (start & p & st & s & t & std & td & ev & ok & h' & jobs' & lg'
        & Hopen & Hcons & Hflag & Hjobs).
  rewrite (process_selected_eq _ files_path _ _ _ _ Hopen) in Hbody.
  cbn [tr_start tr_job_payload tr_job_id tr_summary] in Hbody.
  match type of Hbody with
  | route_and_record _ _ _ _ _ _ _ ?fr' = _ =>
      destruct (route_and_record_run files_path file start
                  (job_name (w_job_counter w + 1)) p st s t std td ev ok fr'
                  Hcons)
        as (b & fs & lg & h2 & lg2 & stage & Hmv & Hroute & _ & Hst
            & Hstatus & Hsum & _ & _ & Hp & _)
  end.
  cbv zeta in Hmv, Hroute, Hstatus, Hp.
  cbn [fr_world w_heap w_fs w_jobs w_job_counter w_clock w_sleep calls
       local_err file_to_proc selected_frame] in *.
  rewrite Hflag in *.
  match type of Hroute with
  | route_and_record _ _ _ _ _ _ _ ?fr0 = _ =>
      pose proof (route_and_record_json files_path file start _ p st s t std
                    td ev ok fr0 _ _ Hcons Hroute) as Hjson
  end.
  cbn [hist_doc fr_world w_heap] in Hjson.
  rewrite Hroute in Hbody. injection Hbody as <- <-.
  cbv zeta in Hrun.
  cbn [caught after_except fr_world calls process_results_doc app] in Hrun.
  unfold source_singletons in Hrun.
  cbn [files_mgr clean_file_process_q] in Hrun.
  unfold FilesManager.clean_file_process_q, log_info in Hrun.
  cbn [with_log w_log w_fs w_heap w_jobs w_job_counter w_task_id w_clock
       w_sleep] in Hrun.
  destruct Hcons as [(x1 & x2 & x3 & Hp0) _ Hjob _ _ _ _ _ _ _ _ _].
  cbn [w_heap w_jobs] in Hp0, Hjob.
  cbv zeta.
  eexists _, _, p, st, _, stage, _, b, _.
  split; [exact Hrun|].
  cbn [w_job_counter w_task_id w_jobs w_heap w_fs].
  split; [reflexivity|]. split; [reflexivity|]. split; [exact Hjobs|].
  split; [exact Hjob|]. split; [rewrite Hp; exact Hp0|].
  split; [reflexivity|]. split; [exact Hst|]. split; [exact Hstatus|].
  split; [exact Hsum|].
  split; [|split; [exact Hmv|split; [reflexivity|exact Hjson]]].
  reflexivity.
Qed.


End SourceInvocations.


Section History.
Context {os : OS}.

(** X10: the result document that lines 212 to 247 return, from a state
    in which the job is opened and the summary is one the transformer
    built, is accepted by [update_history]: it returns, logs one line
    and changes nothing else. *)
Theorem update_history_accepts_hist_doc (files_path : dict)
    (file : pending_file) (start : Z) (job_id : string) (p st s t : loc)
    (std td : dict) (ev : value) (ok : Z) (fr : frame) :
  consumable (fr_world fr) job_id p st s t std td ev ok ->
  exists r fr' w',
    route_and_record source_singletons files_path file start (VRef p) job_id
      (VRef s) fr = (Ret (Some r), fr') /\
    update_history (hist_doc r) (fr_world fr') = (Ret tt, w') /\
    w_log w'
    = w_log (fr_world fr') ++ [LogInfo "Inserting document to history: "] /\
    w_heap w' = w_heap (fr_world fr') /\
    w_jobs w' = w_jobs (fr_world fr') /\
    w_fs w' = w_fs (fr_world fr').
Proof.
  intros Hc.
  destruct (route_and_record_run files_path file start job_id p st s t std td
              ev ok fr Hc)
    as (b & fs & lg & h' & lg' & stage & _ & Hrun & _).
  cbv zeta in Hrun.
  pose proof (route_and_record_json _ _ _ _ _ _ _ _ _ _ _ _ _ _ _ Hc Hrun)
    as Hjson.
  cbn [hist_doc fr_world w_heap] in Hjson.
  eexists _, _, _. split; [exact Hrun|].
  cbn [hist_doc fr_world].
  unfold update_history, json_dumps, get_heap, log_info. cbn.
  rewrite Hjson. cbn. repeat split; reflexivity.
Qed.

End History.

Lemma update_history_accepts_hist_doc_witness :
  exists r fr' w',
    route_and_record source_singletons demo_paths demo_file 1000000 (VRef 1)
      "JOB_1" (VRef 6) transformed_failing = (Ret (Some r), fr') /\
    update_history (hist_doc r) (fr_world fr') = (Ret tt, w') /\
    w_heap w' = w_heap (fr_world fr').
Proof.
  destruct (update_history_accepts_hist_doc demo_paths demo_file 1000000
              "JOB_1" 1 0 6 4 _ _ _ _ transformed_failing
              transformed_failing_consumable)
    as (r & fr' & w' & Hrun & Hup & _ & Hheap & _).
  exists r, fr', w'. split; [exact Hrun|]. split; [exact Hup|exact Hheap].
Defined.

(** ** Start and main program *)

Section ProgramFacts.
Context {os : OS}.

(** With a string for the watch directory, what the selector returns
    depends on the file system alone. *)
Lemma select_depends_on_fs (files_path : dict) (reverse : bool)
    (dir : string) (w1 w2 : world) :
  path_of files_path "repo_path" = VStr dir ->
  w_fs w1 = w_fs w2 ->
  fst (FilesManager.get_first_available_file files_path reverse w1)
  = fst (FilesManager.get_first_available_file files_path reverse w2).
Proof.
  intros Hp Hfs.
  destruct w1 as [fs1 h1 j1 c1 t1 k1 s1 l1], w2 as [fs2 h2 j2 c2 t2 k2 s2 l2].
  cbn in Hfs. subst fs2.
  unfold FilesManager.get_first_available_file, py_truthy, get_heap,
    path_exists, listdir.
  rewrite Hp. cbn. destruct (String.eqb dir ""); cbn; [reflexivity|].
  destruct (os_path_exists dir fs1); cbn; [|reflexivity].
  destruct (os_listdir dir fs1) as [e|names]; [reflexivity|].
  cbn -[py_sort filter].
  destruct (filter _ names); [reflexivity|].
  destruct (py_sort reverse _); reflexivity.
Qed.


End ProgramFacts.

